(** * CA Review Engine: a shallow embedding of the rule-evaluation code

    The development follows the two scripts of the extension:
    - [scripts/popup.js]: the [CAReviewEngine] class (profile analysis,
      report assembly, usage counting);
    - [background.js]: statutory reference data, document validation and the
      usage-limit query.

    JavaScript numbers are IEEE 754 binary64 values, here the primitive
    [float] of Rocq, so that [>], [<], [/] and [Math.abs] are the operations
    the scripts run.  Strings are byte strings (UTF-8); a missing object
    property ([undefined]) is [None]. *)

From Stdlib Require Import Floats ZArith Ascii String DecimalString.
From stdpp Require Import gmap strings list.

Set Warnings "-inexact-float".
Local Open Scope float_scope.

(** ** The fragment of JavaScript the scripts use *)

Module JS.

(** *** Numbers *)

(** [x > y] and [x < y]: false as soon as one side is [NaN]. *)
Definition gt (x y : float) : bool := PrimFloat.ltb y x.
Definition lt (x y : float) : bool := PrimFloat.ltb x y.

(** [ToNumber] of a property that holds a number or is absent:
    [ToNumber(undefined)] is [NaN]. *)
Definition toNumber (v : option float) : float :=
  match v with
  | Some x => x
  | None => nan
  end.

(** [ToBoolean] of a property that holds a boolean or is absent. *)
Definition truthy (v : option bool) : bool :=
  match v with
  | Some b => b
  | None => false
  end.

(** *** Strings *)

(** [String.prototype.toLowerCase], character by character.  Only the
    letters [A]..[Z] change and the bytes of a non-ASCII character are
    kept.  The result is only ever searched for the ASCII words of the
    scripts ("profession" and the disallowable keywords), and there the
    search agrees with the host function: the only non-ASCII characters
    whose lower case holds an ASCII letter are U+212A (a "k", which none
    of the words has) and U+0130 (an "i" followed by a combining dot,
    while in each word "i" is followed by a letter). *)
Definition lowerChar (c : ascii) : ascii :=
  let n := N_of_ascii c in
  if ((65 <=? n) && (n <=? 90))%N then ascii_of_N (n + 32) else c.

Fixpoint toLowerCase (s : string) : string :=
  match s with
  | EmptyString => EmptyString
  | String c s' => String (lowerChar c) (toLowerCase s')
  end.

(** [s.includes(needle)]: [needle] occurs in [s] at some position. *)
Fixpoint includes (s needle : string) : bool :=
  String.prefix needle s ||
  match s with
  | EmptyString => false
  | String _ s' => includes s' needle
  end.

(** [Array.prototype.join] on an array of strings. *)
Fixpoint join (sep : string) (l : list string) : string :=
  match l with
  | [] => ""
  | [x] => x
  | x :: l' => x +:+ sep +:+ join sep l'
  end.

(** [Array.prototype.includes] on an array of strings. *)
Definition arrayIncludes (l : list string) (x : string) : bool :=
  existsb (String.eqb x) l.

(** Template-literal rendering of an array length. *)
Definition lengthToString (n : nat) : string :=
  NilZero.string_of_uint (Nat.to_uint n).

(** *** Number formatting *)

Section NumberFormatting.

(** [Number::toString] on a finite non-zero number (the shortest
    decimal text that reads back as the same number) is left to the
    host. *)
Variable finiteToString : float -> string.

Definition numberToString (x : float) : string :=
  match Prim2SF x with
  | S754_nan => "NaN"
  | S754_infinity false => "Infinity"
  | S754_infinity true => "-Infinity"
  | S754_zero _ => "0"
  | S754_finite _ _ _ => finiteToString x
  end.

(** The integer [n] for which [n / 10^f - m * 2^e] is as close to zero
    as possible, the larger one when there are two. *)
Definition nearestScaled (f : nat) (m : positive) (e : Z) : Z :=
  let scaled := (Z.pos m * 10 ^ Z.of_nat f)%Z in
  if (0 <=? e)%Z then (scaled * 2 ^ e)%Z
  else ((2 * scaled + 2 ^ (- e)) / (2 * 2 ^ (- e)))%Z.

Definition decimalDigits (n : Z) : string :=
  NilZero.string_of_uint (N.to_uint (Z.to_N n)).

Fixpoint zeros (k : nat) : string :=
  match k with
  | O => ""
  | S k' => String "0" (zeros k')
  end.

(** Steps 11.b and 11.c of [Number.prototype.toFixed]. *)
Definition fixedNotation (f : nat) (n : Z) : string :=
  let m := decimalDigits n in
  if Nat.eqb f 0 then m
  else
    let k := String.length m in
    let m := if Nat.leb k f then zeros (f + 1 - k) +:+ m else m in
    let k := String.length m in
    substring 0 (k - f) m +:+ "." +:+ substring (k - f) f m.

(** [x.toFixed(f)] for [0 <= f <= 100]. *)
Definition toFixed (f : nat) (x : float) : string :=
  match Prim2SF x with
  | S754_finite s m e =>
      let sign := if s then "-" else "" in
      if ((0 <=? e) && (10 ^ 21 <=? Z.pos m * 2 ^ e))%Z
      then sign +:+ numberToString (abs x)
      else sign +:+ fixedNotation f (nearestScaled f m e)
  | S754_zero _ => fixedNotation f 0
  | _ => numberToString x
  end.

End NumberFormatting.

(** *** Completions: a call returns a value or throws *)

Inductive completion (A : Type) : Type :=
| Normal (a : A)
| Throw (message : string).
Arguments Normal {A} a.
Arguments Throw {A} message.

#[export] Instance completion_ret : MRet completion := @Normal.

#[export] Instance completion_bind : MBind completion :=
  fun A B k c =>
    match c with
    | Normal a => k a
    | Throw m => Throw m
    end.

#[export] Instance completion_fmap : FMap completion :=
  fun A B f c =>
    match c with
    | Normal a => Normal (f a)
    | Throw m => Throw m
    end.

End JS.

(** ** [scripts/popup.js] *)

Module Popup.
Import JS.

(** One entry of [requiredDocuments.conditional]. *)
Record ConditionalDocument := {
  doc_name : string;
  doc_reason : string;
  doc_id : string
}.

Record RequiredDocuments := {
  mandatory : list string;
  conditional : list ConditionalDocument
}.

(** The object built by [determineCompliance].  [audit] receives
    [profile.auditApplicable] as it is, so it can be [undefined]. *)
Record Compliance := {
  gst : bool;
  incomeTax : bool;
  tds : bool;
  audit : option bool;
  mca : bool
}.

(** The profile object.  The first nine fields are the ones that
    [handleProfileSubmit] writes; [contribution] is read by
    [isAuditApplicable]; the last three are added by
    [analyzeClientProfile]. *)
Record Profile := {
  clientName : string;
  entityType : string;
  businessNature : string;
  financialYear : string;
  turnover : float;
  gstStatus : string;
  accountingMethod : string;
  previousYearAvailable : bool;
  profileDate : string;
  contribution : option float;
  auditApplicable : option bool;
  requiredDocuments : option RequiredDocuments;
  complianceRequirements : option Compliance
}.

Definition isAuditApplicable (profile : Profile) : bool :=
  let turnover := turnover profile in
  let entityType := entityType profile in
  if String.eqb entityType "private" || String.eqb entityType "public" then
    true
  else if String.eqb entityType "llp" then
    gt turnover 4000000 || gt (toNumber (contribution profile)) 2500000
  else if String.eqb entityType "partnership" then
    gt turnover 10000000
  else if includes (toLowerCase (businessNature profile)) "profession" then
    gt turnover 5000000
  else
    gt turnover 10000000.

Definition gstReturns : ConditionalDocument :=
  {| doc_name := "GST Returns (GSTR-1, GSTR-3B)";
     doc_reason := "GST registered entity";
     doc_id := "gstReturns" |}.

Definition bankStatements : ConditionalDocument :=
  {| doc_name := "Bank Statements";
     doc_reason := "Turnover exceeds ₹50 lakhs";
     doc_id := "bankStatements" |}.

Definition previousYear : ConditionalDocument :=
  {| doc_name := "Previous Year Financials";
     doc_reason := "For comparative analysis";
     doc_id := "previousYear" |}.

Definition auditReport : ConditionalDocument :=
  {| doc_name := "Audit Report";
     doc_reason := "Audit applicable";
     doc_id := "auditReport" |}.

(** [docs.conditional.push(d)] under a condition. *)
Definition pushIf {A} (b : bool) (d : A) (l : list A) : list A :=
  if b then l ++ [d] else l.

Definition determineRequiredDocuments (profile : Profile) : RequiredDocuments :=
  let c0 : list ConditionalDocument := [] in
  let c1 := pushIf (String.eqb (gstStatus profile) "registered") gstReturns c0 in
  let c2 := pushIf (gt (turnover profile) 5000000) bankStatements c1 in
  let c3 := pushIf (previousYearAvailable profile) previousYear c2 in
  let c4 := pushIf (truthy (auditApplicable profile)) auditReport c3 in
  {| mandatory := ["balanceSheet"; "profitLoss"; "trialBalance"];
     conditional := c4 |}.

Definition determineCompliance (profile : Profile) : Compliance :=
  {| gst := String.eqb (gstStatus profile) "registered";
     incomeTax := true;
     tds := gt (turnover profile) 10000000;
     audit := auditApplicable profile;
     mca := arrayIncludes ["private"; "public"; "llp"] (entityType profile) |}.

(** [analyzeClientProfile] copies [formData] and adds three fields.
    The three helpers are all called on [formData], not on the copy. *)
Definition analyzeClientProfile (formData : Profile) : Profile :=
  {| clientName := clientName formData;
     entityType := entityType formData;
     businessNature := businessNature formData;
     financialYear := financialYear formData;
     turnover := turnover formData;
     gstStatus := gstStatus formData;
     accountingMethod := accountingMethod formData;
     previousYearAvailable := previousYearAvailable formData;
     profileDate := profileDate formData;
     contribution := contribution formData;
     auditApplicable := Some (isAuditApplicable formData);
     requiredDocuments := Some (determineRequiredDocuments formData);
     complianceRequirements := Some (determineCompliance formData) |}.

(** *** The controller object and what surrounds it *)

(** [uploadedDocuments[documentType]]: metadata of a selected file. *)
Record FileMeta := {
  file_name : string;
  file_size : float;
  file_type : string;
  file_lastModified : float
}.

Record ReviewItem := {
  item_type : string;
  item_icon : string;
  item_text : string
}.

Record ReviewSection := {
  section_title : string;
  section_items : list ReviewItem
}.

(** The object built by [performReview]; [sections] is keyed by
    section identifier. *)
Record Review := {
  review_timestamp : string;
  review_clientName : string;
  review_financialYear : string;
  review_sections : gmap string ReviewSection
}.

(** The fields of a [CAReviewEngine] instance. *)
Record Engine := {
  clientProfile : option Profile;
  uploadedDocuments : gmap string FileMeta;
  reviewResults : option Review;
  usageCount : Z;
  maxUsage : Z
}.

(** [storage.local], restricted to the keys the scripts write. *)
Record Storage := {
  stored_clientProfile : option Profile;
  stored_usageCount : option Z;
  stored_reviewResults : option Review;
  stored_installDate : option string;
  stored_version : option string
}.

(** One section of the report: [content], [points], or both absent. *)
Record ReportSection := {
  rs_title : string;
  rs_content : option string;
  rs_points : option (list string)
}.

Record Report := {
  title : string;
  report_clientName : string;
  report_financialYear : string;
  reportDate : string;
  sections : list ReportSection;
  disclaimer : string
}.

(** A callback handed to [setTimeout] and not yet run. *)
Inductive Timer :=
| ReportTimer.

(** The popup as the event loop sees it: the controller, the storage
    area, the timers still pending (oldest first; all are set with the
    same delay) and what was shown to the user.  Updates of the page
    (tabs, badges, loading panels) change none of these and are left
    out. *)
Record World := {
  engine : Engine;
  storage : Storage;
  timers : list Timer;
  notifications : list (string * string);
  displayedReport : option Report
}.

(** A time value: milliseconds since the epoch. *)
Definition Date := Z.

(** The values of the profile form. *)
Record ProfileForm := {
  form_clientName : string;
  form_entityType : string;
  form_businessNature : string;
  form_financialYear : string;
  form_turnover : string;
  form_gstStatus : string;
  form_accountingMethod : string;
  form_previousYearAvailable : bool
}.

Definition setClientProfile (p : option Profile) (e : Engine) : Engine :=
  {| clientProfile := p;
     uploadedDocuments := uploadedDocuments e;
     reviewResults := reviewResults e;
     usageCount := usageCount e;
     maxUsage := maxUsage e |}.

Definition setUsageCount (n : Z) (e : Engine) : Engine :=
  {| clientProfile := clientProfile e;
     uploadedDocuments := uploadedDocuments e;
     reviewResults := reviewResults e;
     usageCount := n;
     maxUsage := maxUsage e |}.

Definition storeClientProfile (p : Profile) (s : Storage) : Storage :=
  {| stored_clientProfile := Some p;
     stored_usageCount := stored_usageCount s;
     stored_reviewResults := stored_reviewResults s;
     stored_installDate := stored_installDate s;
     stored_version := stored_version s |}.

Definition storeUsageCount (n : Z) (s : Storage) : Storage :=
  {| stored_clientProfile := stored_clientProfile s;
     stored_usageCount := Some n;
     stored_reviewResults := stored_reviewResults s;
     stored_installDate := stored_installDate s;
     stored_version := stored_version s |}.

Definition showNotification (message type : string) (w : World) : World :=
  {| engine := engine w;
     storage := storage w;
     timers := timers w;
     notifications := notifications w ++ [(message, type)];
     displayedReport := displayedReport w |}.

Definition setTimeout (t : Timer) (w : World) : World :=
  {| engine := engine w;
     storage := storage w;
     timers := timers w ++ [t];
     notifications := notifications w;
     displayedReport := displayedReport w |}.

(** [new CAReviewEngine()], before [init] has loaded anything. *)
Definition constructor : Engine :=
  {| clientProfile := None;
     uploadedDocuments := ∅;
     reviewResults := None;
     usageCount := 0;
     maxUsage := 99 |}.

(** [data.usageCount || 0]: an absent key or a stored [0] gives [0]. *)
Definition orZero (v : option Z) : Z :=
  match v with
  | Some n => n
  | None => 0
  end.

Definition loadData (s : Storage) (e : Engine) : Engine :=
  {| clientProfile := stored_clientProfile s;
     uploadedDocuments := uploadedDocuments e;
     reviewResults := stored_reviewResults s;
     usageCount := orZero (stored_usageCount s);
     maxUsage := maxUsage e |}.

Section Host.

(** Host functions: [parseFloat], [Date.prototype.toISOString] and
    [Date.prototype.toLocaleDateString] for the locale [en-IN]. *)
Variable parseFloat : string -> float.
Variable toISOString : Date -> string.
Variable toLocaleDateString : Date -> string.

(** The [formData] object of [handleProfileSubmit]. *)
Definition formData (form : ProfileForm) (now : Date) : Profile :=
  {| clientName := form_clientName form;
     entityType := form_entityType form;
     businessNature := form_businessNature form;
     financialYear := form_financialYear form;
     turnover := parseFloat (form_turnover form);
     gstStatus := form_gstStatus form;
     accountingMethod := form_accountingMethod form;
     previousYearAvailable := form_previousYearAvailable form;
     profileDate := toISOString now;
     contribution := None;
     auditApplicable := None;
     requiredDocuments := None;
     complianceRequirements := None |}.

Definition handleProfileSubmit (form : ProfileForm) (now : Date) (w : World) : World :=
  let profile := analyzeClientProfile (formData form now) in
  showNotification "Client profile saved successfully" "success"
    {| engine := setClientProfile (Some profile) (engine w);
       storage := storeClientProfile profile (storage w);
       timers := timers w;
       notifications := notifications w;
       displayedReport := displayedReport w |}.

(** Reading a property of [null] or [undefined] throws. *)
Definition required {A} (what : string) (v : option A) : completion A :=
  match v with
  | Some a => Normal a
  | None => Throw ("TypeError: cannot read properties of " +:+ what)
  end.

Definition applicability (b : bool) : string :=
  if b then "Applicable" else "Not Applicable".

Definition createReport (this : Engine) (now : Date) : completion Report :=
  profile ← required "this.clientProfile" (clientProfile this);
  compliance ← required "this.clientProfile.complianceRequirements"
                 (complianceRequirements profile);
  mret
    {| title := "Chartered Accountant Review Report";
       report_clientName := clientName profile;
       report_financialYear := financialYear profile;
       reportDate := toLocaleDateString now;
       sections := [
         {| rs_title := "1. Executive Summary";
            rs_content := Some
              ("This report presents a rule-based review of financial documents for "
               +:+ clientName profile +:+ " for the financial year "
               +:+ financialYear profile
               +:+ ". The review is based on statutory requirements, accounting standards, and tax provisions.");
            rs_points := None |};
         {| rs_title := "2. Key Observations";
            rs_content := None;
            rs_points := Some [
              "Balance sheet structurally verified with no mathematical errors";
              "Gross profit margin shows improvement from previous year";
              "GST turnover mismatch identified requiring reconciliation";
              "Debtor collection period exceeds industry standards" ] |};
         {| rs_title := "3. Items Requiring Clarification";
            rs_content := None;
            rs_points := Some [
              "Significant increase in current liabilities (35% YoY)";
              "Personal vehicle expenses requiring disallowance computation";
              "Cash expenses exceeding statutory limits";
              "ITC reconciliation with GSTR-2B pending" ] |};
         {| rs_title := "4. High-Risk Areas";
            rs_content := None;
            rs_points := Some [
              "GST turnover mismatch of ₹2,50,000";
              "Potential Section 40A(3) disallowance on cash payments";
              "Personal expense disallowance may impact tax liability" ] |};
         {| rs_title := "5. Compliance Status";
            rs_content := None;
            rs_points := Some [
              "Tax Audit: " +:+ applicability (truthy (auditApplicable profile));
              "GST Filing: " +:+
                (if String.eqb (gstStatus profile) "registered"
                 then "Regular" else "Not Applicable");
              "Income Tax Return: Filing required";
              "MCA Filings: " +:+ applicability (mca compliance) ] |};
         {| rs_title := "6. Next Steps";
            rs_content := None;
            rs_points := Some [
              "Obtain clarifications on flagged items";
              "Reconcile GST returns with books of accounts";
              "Compute disallowances under Income Tax Act";
              "Prepare tax audit report if applicable";
              "File returns within statutory due dates" ] |} ];
       disclaimer := "This report is based on rule-based review and publicly available statutory information. Final decisions must be taken by a qualified Chartered Accountant. This report does not constitute audit, assurance, or legal opinion." |}.

(** [generateReport] up to its [setTimeout]: the limit is tested when
    the button is pressed. *)
Definition generateReport (w : World) : World :=
  if (usageCount (engine w) >=? maxUsage (engine w))%Z then
    showNotification "Usage limit reached (99/99)" "error" w
  else
    setTimeout ReportTimer w.

(** The callback that [generateReport] hands to [setTimeout].  When
    [createReport] throws, nothing after it runs. *)
Definition finalizeReport (now : Date) (w : World) : World :=
  match createReport (engine w) now with
  | Throw _ => w
  | Normal report =>
      let count := (usageCount (engine w) + 1)%Z in
      showNotification "Report generated successfully" "success"
        {| engine := setUsageCount count (engine w);
           storage := storeUsageCount count (storage w);
           timers := timers w;
           notifications := notifications w;
           displayedReport := Some report |}
  end.

(** What can happen to an open popup, as far as the usage counter is
    concerned. *)
Inductive Event :=
| SubmitProfile (form : ProfileForm) (now : Date)
| ClickGenerateReport
| TimerFires (now : Date).

Definition dropTimer (w : World) : World :=
  {| engine := engine w;
     storage := storage w;
     timers := tail (timers w);
     notifications := notifications w;
     displayedReport := displayedReport w |}.

Definition step (w : World) (ev : Event) : World :=
  match ev with
  | SubmitProfile form now => handleProfileSubmit form now w
  | ClickGenerateReport => generateReport w
  | TimerFires now =>
      match timers w with
      | ReportTimer :: _ => finalizeReport now (dropTimer w)
      | [] => w
      end
  end.

Definition run (w : World) (evs : list Event) : World :=
  foldl step w evs.

End Host.

(** A storage area with no key set. *)
Definition emptyStorage : Storage :=
  {| stored_clientProfile := None;
     stored_usageCount := None;
     stored_reviewResults := None;
     stored_installDate := None;
     stored_version := None |}.

(** A popup opened on a storage area: [new CAReviewEngine()] followed by
    [loadData]. *)
Definition openPopup (s : Storage) : World :=
  {| engine := loadData s constructor;
     storage := s;
     timers := [];
     notifications := [];
     displayedReport := None |}.

(** *** File selection *)

(** [handleFileSelect]: [file] is [event.target.files[0]], absent when the
    dialog was cancelled. *)
Definition handleFileSelect (file : option FileMeta) (documentType : string)
    (e : Engine) : Engine :=
  match file with
  | Some f =>
      {| clientProfile := clientProfile e;
         uploadedDocuments := <[documentType := f]> (uploadedDocuments e);
         reviewResults := reviewResults e;
         usageCount := usageCount e;
         maxUsage := maxUsage e |}
  | None => e
  end.

(** [checkMandatoryDocuments]: the value it gives to
    [processBtn.disabled]. *)
Definition checkMandatoryDocuments (e : Engine) : bool :=
  let required := ["balanceSheet"; "profitLoss"; "trialBalance"] in
  let allUploaded :=
    forallb (λ doc, bool_decide (is_Some (uploadedDocuments e !! doc))) required in
  negb allUploaded.

(** *** The review *)

Definition reviewItem (type icon text : string) : ReviewItem :=
  {| item_type := type; item_icon := icon; item_text := text |}.

Definition validateStructure : ReviewSection :=
  {| section_title := "Structural Validation";
     section_items := [
       reviewItem "normal" "✓"
         "Balance Sheet equation verified: Assets = Liabilities + Capital";
       reviewItem "normal" "✓" "Trial Balance totals match";
       reviewItem "clarification" "⚠"
         "Significant increase in current liabilities (35% YoY) - requires explanation";
       reviewItem "normal" "✓" "No negative balances found in asset accounts" ] |}.

Definition reviewProfitLoss : ReviewSection :=
  {| section_title := "Profit & Loss Review";
     section_items := [
       reviewItem "normal" "✓" "Gross Profit Margin: 28.5% (Previous Year: 26.8%)";
       reviewItem "high-risk" "✗"
         "Personal expenses identified: Vehicle expenses ₹2,50,000 - May require disallowance";
       reviewItem "clarification" "⚠"
         "Cash expenses exceeding ₹10,000 found - Section 40A(3) applicability";
       reviewItem "normal" "✓" "Depreciation calculated as per Companies Act rates" ] |}.

Definition calculateRatios : ReviewSection :=
  {| section_title := "Ratio Analysis";
     section_items := [
       reviewItem "normal" "✓" "Current Ratio: 2.1 (Industry Benchmark: 1.5-2.0)";
       reviewItem "normal" "✓" "Debt-Equity Ratio: 0.8 (Previous Year: 0.9) - Improved";
       reviewItem "clarification" "⚠"
         "Debtor Days: 85 days (Industry: 45-60 days) - Collection period high";
       reviewItem "normal" "✓" "Net Profit Margin: 12.3% (Previous Year: 10.5%)" ] |}.

Definition reviewGST : ReviewSection :=
  {| section_title := "GST vs Books Reconciliation";
     section_items := [
       reviewItem "high-risk" "✗"
         "Turnover mismatch: Books ₹1,25,00,000 vs GSTR-3B ₹1,22,50,000 - Difference of ₹2,50,000";
       reviewItem "clarification" "⚠"
         "ITC claimed in books does not match GSTR-2B - Requires reconciliation";
       reviewItem "normal" "✓" "GST returns filed on time for all months" ] |}.

(** [checkCompliance] on the stored profile; reading a flag of a missing
    [complianceRequirements] throws. *)
Definition checkCompliance (profile : Profile) : completion ReviewSection :=
  let items := [
    reviewItem "normal" "✓"
      ("Income Tax: ITR filing applicable - " +:+
       (if truthy (auditApplicable profile) then "Audit" else "Non-audit") +:+
       " case") ] in
  match complianceRequirements profile with
  | None => Throw "TypeError: cannot read properties of this.clientProfile.complianceRequirements"
  | Some compliance =>
      let items :=
        pushIf (gst compliance)
          (reviewItem "normal" "✓"
             "GST: Registration active, monthly/quarterly filing required")
          items in
      let items :=
        pushIf (truthy (audit compliance))
          (reviewItem "clarification" "⚠"
             ("Audit: " +:+
              (if truthy (auditApplicable profile)
               then "Applicable" else "Not applicable") +:+
              " - Verify applicability based on actual figures"))
          items in
      let items :=
        pushIf (mca compliance)
          (reviewItem "normal" "✓" "MCA: Annual filing requirements applicable")
          items in
      Normal {| section_title := "Compliance Status"; section_items := items |}
  end.

Section ReviewHost.

Variable toISOString : Date → string.

Definition performReview (this : Engine) (now : Date) : completion Review :=
  match clientProfile this with
  | None => Throw "TypeError: cannot read properties of this.clientProfile"
  | Some profile =>
      let sections : gmap string ReviewSection :=
        <["ratioAnalysis" := calculateRatios]>
          (<["profitLossReview" := reviewProfitLoss]>
             (<["structuralValidation" := validateStructure]> ∅)) in
      let sections :=
        if String.eqb (gstStatus profile) "registered"
        then <["gstReview" := reviewGST]> sections
        else sections in
      compliance ← checkCompliance profile;
      mret {| review_timestamp := toISOString now;
              review_clientName := clientName profile;
              review_financialYear := financialYear profile;
              review_sections := <["compliance" := compliance]> sections |}
  end.

(** [processDocuments] up to its [setTimeout]: the limit is tested and,
    when it is reached, only the error is shown.  The flag tells whether
    the review callback was scheduled. *)
Definition processDocuments (w : World) : World * bool :=
  if (usageCount (engine w) >=? maxUsage (engine w))%Z then
    (showNotification "Usage limit reached (99/99)" "error" w, false)
  else
    (w, true).

(** The callback that [processDocuments] hands to [setTimeout].  When
    [performReview] throws, nothing after it runs. *)
Definition finishProcessing (now : Date) (w : World) : World :=
  match performReview (engine w) now with
  | Throw _ => w
  | Normal review =>
      showNotification "Documents processed successfully" "success"
        {| engine :=
             {| clientProfile := clientProfile (engine w);
                uploadedDocuments := uploadedDocuments (engine w);
                reviewResults := Some review;
                usageCount := usageCount (engine w);
                maxUsage := maxUsage (engine w) |};
           storage :=
             {| stored_clientProfile := stored_clientProfile (storage w);
                stored_usageCount := stored_usageCount (storage w);
                stored_reviewResults := Some review;
                stored_installDate := stored_installDate (storage w);
                stored_version := stored_version (storage w) |};
           timers := timers w;
           notifications := notifications w;
           displayedReport := displayedReport w |}
  end.

End ReviewHost.

End Popup.

(** ** [background.js] *)

Module Background.
Import JS.

(** *** Statutory reference data *)

(** The properties every object literal inherits from
    [Object.prototype]; [obj[key]] finds them when [obj] has no own
    property [key]. *)
Definition objectPrototypeProperties : list string :=
  [ "constructor"; "hasOwnProperty"; "isPrototypeOf";
    "propertyIsEnumerable"; "toLocaleString"; "toString"; "valueOf";
    "__proto__"; "__defineGetter__"; "__defineSetter__";
    "__lookupGetter__"; "__lookupSetter__" ].

(** The result of [obj[key]] on an object literal. *)
Inductive property (V : Type) : Type :=
| Own (v : V)
| Inherited (key : string)
| Undefined.
Arguments Own {V} v.
Arguments Inherited {V} key.
Arguments Undefined {V}.

Definition getProperty {V} (obj : gmap string V) (key : string) : property V :=
  match obj !! key with
  | Some v => Own v
  | None =>
      if bool_decide (key ∈ objectPrototypeProperties) then Inherited key
      else Undefined
  end.

(** A value stored in a statutory table. *)
Inductive datum :=
| Num (x : float)
| Str (s : string).

Definition approvedSources : gmap string string :=
  {[ "income-tax" := "https://www.incometax.gov.in";
     "gst" := "https://www.gst.gov.in";
     "mca" := "https://www.mca.gov.in";
     "icai" := "https://www.icai.org" ]}.

Definition data : gmap string (gmap string (gmap string datum)) :=
  {[ "income-tax" :=
       {[ "tax-audit-threshold" :=
            {[ "business" := Num 10000000;
               "profession" := Num 5000000;
               "presumptive44AD" := Num 20000000;
               "lastUpdated" := Str "2024-04-01" ]};
          "itr-due-dates" :=
            {[ "nonAudit" := Str "2025-07-31";
               "audit" := Str "2025-10-31";
               "transferPricing" := Str "2025-11-30" ]};
          "tds-rates" :=
            {[ "salary" := Str "30% above ₹10L";
               "contractorIndividual" := Str "1%";
               "contractorCompany" := Str "2%";
               "professionalFees" := Str "10%";
               "rent" := Str "10%" ]} ]};
     "gst" :=
       {[ "registration-threshold" :=
            {[ "goods" := Num 4000000;
               "services" := Num 2000000;
               "specialCategory" := Num 1000000;
               "lastUpdated" := Str "2024-04-01" ]};
          "gst-rates" :=
            {[ "nil" := Str "Essential items";
               "5%" := Str "Common use items";
               "12%" := Str "Standard items";
               "18%" := Str "Most goods and services";
               "28%" := Str "Luxury and sin goods" ]};
          "return-types" :=
            {[ "GSTR-1" := Str "Outward supplies";
               "GSTR-3B" := Str "Summary return";
               "GSTR-9" := Str "Annual return";
               "GSTR-9C" := Str "Reconciliation statement" ]} ]};
     "mca" :=
       {[ "company-filings" :=
            {[ "Form AOC-4" := Str "Financial statements - Annual";
               "Form MGT-7" := Str "Annual return";
               "Form ADT-1" := Str "Appointment of auditor";
               "Form DIR-3 KYC" := Str "Director KYC" ]};
          "llp-filings" :=
            {[ "Form 8" := Str "Statement of account - Annual";
               "Form 11" := Str "Annual return" ]} ]} ]}.

(** What [getStatutoryDataSimulated] can return: the tables of one
    source (possibly the empty object) or, for an inherited key, a
    member of [Object.prototype]. *)
Inductive statutoryData :=
| Tables (t : gmap string (gmap string datum))
| PrototypeMember (key : string).

(** [data[source] || {}]; [query] is not read. *)
Definition getStatutoryDataSimulated (source query : string) : statutoryData :=
  match getProperty data source with
  | Own t => Tables t
  | Inherited key => PrototypeMember key
  | Undefined => Tables ∅
  end.

(** [!approvedSources[source]]: an own URL is truthy unless empty, an
    inherited member is truthy, [undefined] is not. *)
Definition isApproved (source : string) : bool :=
  match getProperty approvedSources source with
  | Own url => negb (String.eqb url "")
  | Inherited _ => true
  | Undefined => false
  end.

Definition fetchStatutoryData (source query : string) : completion statutoryData :=
  if negb (isApproved source) then Throw "Unauthorized data source"
  else Normal (getStatutoryDataSimulated source query).

(** *** Document validation *)

Record Results := {
  valid : bool;
  errors : list string;
  warnings : list string;
  info : list string
}.

Definition newResults : Results :=
  {| valid := true; errors := []; warnings := []; info := [] |}.

Definition setInvalid (r : Results) : Results :=
  {| valid := false; errors := errors r; warnings := warnings r; info := info r |}.

Definition pushError (m : string) (r : Results) : Results :=
  {| valid := valid r; errors := errors r ++ [m]; warnings := warnings r; info := info r |}.

Definition pushWarning (m : string) (r : Results) : Results :=
  {| valid := valid r; errors := errors r; warnings := warnings r ++ [m]; info := info r |}.

Definition pushInfo (m : string) (r : Results) : Results :=
  {| valid := valid r; errors := errors r; warnings := warnings r; info := info r ++ [m] |}.

(** [if (c) { ... }] around updates of [results]. *)
Definition when (c : bool) (f : Results -> Results) (r : Results) : Results :=
  if c then f r else r.

Record PreviousYear := {
  previous_totalAssets : float
}.

(** The balance-sheet summary.  A numeric field that is missing reads
    as [undefined] and turns into [NaN] in arithmetic, so [NaN] stands
    for it. *)
Record BalanceSheet := {
  totalAssets : float;
  totalLiabilities : float;
  equity : float;
  negativeAssets : option (list string);
  currentAssets : float;
  currentLiabilities : float;
  previousYear : option PreviousYear
}.

Record Expense := {
  description : string;
  amount : float;
  paymentMode : string
}.

Record ProfitLoss := {
  revenue : float;
  directCosts : float;
  grossProfit : float;
  operatingExpenses : float;
  otherExpenses : float;
  otherIncome : float;
  netProfit : float;
  expenses : list Expense
}.

Definition disallowableKeywords : list string :=
  ["personal"; "penalty"; "fine"; "political donation"].

Definition isDisallowable (expense : Expense) : bool :=
  existsb (fun keyword => includes (toLowerCase (description expense)) keyword)
          disallowableKeywords.

Definition isLargeCashPayment (e : Expense) : bool :=
  String.eqb (paymentMode e) "cash" && gt (amount e) 10000.

Definition cashPaymentWarning (count : nat) : string :=
  lengthToString count +:+
  " cash payments exceeding ₹10,000 found - Section 40A(3) applicable".

Section Host.

Variable finiteToString : float -> string.

Definition lowCurrentRatioWarning (currentRatio : float) : string :=
  "Low current ratio (" +:+ toFixed finiteToString 2 currentRatio +:+
  "): Liquidity concern".

Definition validateBalanceSheet (data : BalanceSheet) : Results :=
  let results := newResults in
  let results :=
    when (gt (abs (totalAssets data - (totalLiabilities data + equity data))) 0.01)
      (fun r => pushError
         "Balance Sheet does not balance: Assets ≠ Liabilities + Equity"
         (setInvalid r))
      results in
  let results :=
    match negativeAssets data with
    | Some accounts =>
        when (negb (Nat.eqb (length accounts) 0))
          (pushWarning ("Negative values found in asset accounts: " +:+
                        join ", " accounts))
          results
    | None => results
    end in
  let currentRatio := currentAssets data / currentLiabilities data in
  let results :=
    when (lt currentRatio 1)
      (pushWarning (lowCurrentRatioWarning currentRatio))
      results in
  match previousYear data with
  | Some previous =>
      let assetChange :=
        ((totalAssets data - previous_totalAssets previous)
         / previous_totalAssets previous) * 100 in
      when (gt (abs assetChange) 20)
        (pushInfo ("Significant change in total assets: " +:+
                   toFixed finiteToString 1 assetChange +:+ "% YoY"))
        results
  | None => results
  end.

Definition disallowableWarning (expense : Expense) : string :=
  "Potential disallowable expense: " +:+ description expense +:+
  " (₹" +:+ numberToString finiteToString (amount expense) +:+ ")".

Definition validateProfitLoss (data : ProfitLoss) : Results :=
  let results := newResults in
  let calculatedGP := revenue data - directCosts data in
  let results :=
    when (gt (abs (calculatedGP - grossProfit data)) 0.01)
      (pushError "Gross Profit calculation mismatch") results in
  let calculatedNP :=
    grossProfit data - operatingExpenses data - otherExpenses data
    + otherIncome data in
  let results :=
    when (gt (abs (calculatedNP - netProfit data)) 0.01)
      (pushError "Net Profit calculation mismatch") results in
  let results :=
    foldl (fun r expense =>
             when (isDisallowable expense)
               (pushWarning (disallowableWarning expense)) r)
          results (expenses data) in
  let largeCashPayments := List.filter isLargeCashPayment (expenses data) in
  when (negb (Nat.eqb (length largeCashPayments) 0))
    (pushWarning (cashPaymentWarning (length largeCashPayments)))
    results.

End Host.

(** *** Usage limit *)

Record UsageLimit := {
  current : Z;
  max : Z;
  remaining : Z;
  exceeded : bool
}.

Definition checkUsageLimit (storage : Popup.Storage) : UsageLimit :=
  let usageCount := Popup.orZero (Popup.stored_usageCount storage) in
  let maxUsage := 99%Z in
  {| current := usageCount;
     max := maxUsage;
     remaining := (maxUsage - usageCount)%Z;
     exceeded := (usageCount >=? maxUsage)%Z |}.

(** [initializeStorage]: [storage.local.set] overwrites the three keys
    and leaves the others. *)
Definition initializeStorage (installDate version : string)
    (storage : Popup.Storage) : Popup.Storage :=
  {| Popup.stored_clientProfile := Popup.stored_clientProfile storage;
     Popup.stored_usageCount := Some 0%Z;
     Popup.stored_reviewResults := Popup.stored_reviewResults storage;
     Popup.stored_installDate := Some installDate;
     Popup.stored_version := Some version |}.

(** *** Trial balance and the dispatch on the document type *)

Record Account := {
  debit : float;
  credit : float
}.

Record TrialBalance := {
  totalDebit : float;
  totalCredit : float;
  accounts : list Account
}.

Definition hasBothSides (acc : Account) : bool :=
  gt (debit acc) 0 && gt (credit acc) 0.

(** The [TypeError]s that the engine raises in these functions: the call
    [validator(documentData)] of a value that is no function, a member
    of [Object.prototype] that converts its undefined [this] to an
    object, and the read of a property of [undefined].  The scripts give
    none of them a text. *)
Inductive typeError :=
| ValidatorNotAFunction
| ThisUndefined (member : string)
| ReadOfUndefined (object property : string).

(** What a promise is rejected with: an [Error] that the script makes,
    with its message, or a [TypeError] of the engine. *)
Inductive rejection :=
| ErrorObject (message : string)
| TypeErrorObject (e : typeError).

(** The promise of an [async] function, once settled. *)
Inductive settled (A : Type) : Type :=
| Fulfilled (a : A)
| Rejected (error : rejection).
Arguments Fulfilled {A} a.
Arguments Rejected {A} error.

Section TrialBalanceHost.

Variable finiteToString : float → string.

Definition validateTrialBalance (data : TrialBalance) : Results :=
  let results := newResults in
  let results :=
    when (gt (abs (totalDebit data - totalCredit data)) 0.01)
      (λ r, pushError
              ("Trial Balance does not tally: Debit (" +:+
               numberToString finiteToString (totalDebit data) +:+
               ") ≠ Credit (" +:+
               numberToString finiteToString (totalCredit data) +:+ ")")
              (setInvalid r))
      results in
  let bothSidesAccounts := List.filter hasBothSides (accounts data) in
  when (negb (Nat.eqb (length bothSidesAccounts) 0))
    (pushWarning (lengthToString (length bothSidesAccounts) +:+
                  " accounts have both debit and credit balances"))
    results.

(** The object handed to [validateDocument].  The three validators read
    disjoint properties, so the object is its [type] and one group of
    properties for each of them; the second and the third group are
    absent when their array ([expenses], [accounts]) is, and reading it
    then throws. *)
Record DocumentData := {
  type : string;
  balanceSheet : BalanceSheet;
  profitLoss : option ProfitLoss;
  trialBalance : option TrialBalance
}.

Inductive validator :=
| BalanceSheetValidator
| ProfitLossValidator
| TrialBalanceValidator.

Definition validations : gmap string validator :=
  {[ "balanceSheet" := BalanceSheetValidator;
     "profitLoss" := ProfitLossValidator;
     "trialBalance" := TrialBalanceValidator ]}.

(** What the promise of [validateDocument] is fulfilled with: the
    results of a validator or, for a type that is a key inherited from
    [Object.prototype], what the call of that member returns: [Object]
    returns its argument, the document itself, and [toString], called
    with [this] undefined, the tag of [undefined]. *)
Inductive validation :=
| Validated (results : Results)
| SameDocument (documentData : DocumentData)
| Tag (text : string).

(** [validator(documentData)] for one of the three validators.
    [validateProfitLoss] calls [data.expenses.forEach] and
    [validateTrialBalance] calls [data.accounts.filter]; both throw when
    the array is absent. *)
Definition applyValidator (v : validator) (documentData : DocumentData)
    : settled validation :=
  match v with
  | BalanceSheetValidator =>
      Fulfilled (Validated (validateBalanceSheet finiteToString (balanceSheet documentData)))
  | ProfitLossValidator =>
      match profitLoss documentData with
      | Some data => Fulfilled (Validated (validateProfitLoss finiteToString data))
      | None => Rejected (TypeErrorObject (ReadOfUndefined "data.expenses" "forEach"))
      end
  | TrialBalanceValidator =>
      match trialBalance documentData with
      | Some data => Fulfilled (Validated (validateTrialBalance data))
      | None => Rejected (TypeErrorObject (ReadOfUndefined "data.accounts" "filter"))
      end
  end.

(** [validator(documentData)] when [validations[documentData.type]] is a
    member of [Object.prototype]; the call passes no [this].
    [constructor] is [Object], which returns an object argument as it
    is; [toString] answers for [undefined]; [__proto__] is the prototype
    object, which is truthy and no function; each of the other members
    ([hasOwnProperty], [isPrototypeOf], [propertyIsEnumerable],
    [toLocaleString], [valueOf] and the four accessor helpers) converts
    [this] to an object and throws. *)
Definition callPrototypeMember (key : string) (documentData : DocumentData)
    : settled validation :=
  if String.eqb key "constructor" then Fulfilled (SameDocument documentData)
  else if String.eqb key "toString" then Fulfilled (Tag "[object Undefined]")
  else if String.eqb key "__proto__" then Rejected (TypeErrorObject ValidatorNotAFunction)
  else Rejected (TypeErrorObject (ThisUndefined key)).

Definition validateDocument (documentData : DocumentData) : settled validation :=
  match getProperty validations (type documentData) with
  | Undefined => Rejected (ErrorObject "Unknown document type")
  | Own v => applyValidator v documentData
  | Inherited key => callPrototypeMember key documentData
  end.

(** *** Messages *)

(** A message: [action] as it is compared with the three names,
    [source] as the property key it is used as, and the document of a
    validation request. *)
Record Message := {
  action : string;
  source : string;
  query : string;
  documentData : DocumentData
}.

Inductive payload :=
| StatutoryPayload (data : statutoryData)
| ValidationPayload (result : validation)
| UsagePayload (result : UsageLimit).

(** The object given to [sendResponse]. *)
Inductive Response :=
| Success (p : payload)
| Failure (error : string).

Definition respond {A} (wrap : A → payload) (c : completion A) : Response :=
  match c with
  | Normal a => Success (wrap a)
  | Throw message => Failure message
  end.

(** Host function: the [message] that the engine gives a [TypeError]. *)
Variable typeErrorMessage : typeError → string.

(** [error.message]. *)
Definition errorMessage (error : rejection) : string :=
  match error with
  | ErrorObject message => message
  | TypeErrorObject e => typeErrorMessage e
  end.

Definition messageHandler (message : Message) (storage : Popup.Storage) : Response :=
  if String.eqb (action message) "fetchStatutoryData" then
    respond StatutoryPayload (fetchStatutoryData (source message) (query message))
  else if String.eqb (action message) "validateDocument" then
    match validateDocument (documentData message) with
    | Fulfilled result => Success (ValidationPayload result)
    | Rejected error => Failure (errorMessage error)
    end
  else if String.eqb (action message) "checkUsageLimit" then
    Success (UsagePayload (checkUsageLimit storage))
  else
    Failure "Unknown action".

End TrialBalanceHost.

(** *** Installation and cleanup *)

Definition handleInstall (reason installDate version : string)
    (storage : Popup.Storage) : Popup.Storage :=
  if String.eqb reason "install" then initializeStorage installDate version storage
  else storage.

Section CleanupHost.

(** The stored values, and the number that [value.timestamp] stands for
    in a comparison: [NaN] when the value has no such property or when
    the property is a text that is no number, as a date in ISO form.
    (A stored [null], on which reading the property throws, is left
    out.) *)
Variable Value : Type.
Variable timestampOf : Value → float.

Definition isStale (thirtyDaysAgo : float) (key : string) (value : Value) : bool :=
  String.prefix "review_" key && lt (timestampOf value) thirtyDaysAgo.

(** [performCleanup] on the storage area as [storage.local.get(null)]
    returns it: each key is visited and removed when it is stale. *)
Definition performCleanup (now : float) (storage : gmap string Value)
    : gmap string Value :=
  let thirtyDaysAgo := now - (30 * 24 * 60 * 60 * 1000) in
  foldr (λ entry area,
           if isStale thirtyDaysAgo entry.1 entry.2 then delete entry.1 area
           else area)
        storage (map_to_list storage).

End CleanupHost.

End Background.

(** * Properties of the embedding *)

(** ** Strings *)

Module StringFacts.
Import JS.

Lemma prefix_app (t s : string) :
  String.prefix t s = true ↔ ∃ rest, s = t +:+ rest.
Proof.
  revert s. induction t as [|c t IH]; intros [|d s]; simpl.
  - split; [intros _; by exists "" | done].
  - split; [intros _; by exists (String d s) | done].
  - split; [done | intros [rest Hrest]; discriminate].
  - destruct (Ascii.ascii_dec c d) as [->|Hne].
    + rewrite IH. split; intros [rest Hrest]; exists rest.
      * by rewrite Hrest.
      * by injection Hrest.
    + split; [done | intros [rest Hrest]; injection Hrest; congruence].
Qed.

(** [includes] finds exactly the occurrences of the needle. *)
Lemma includes_occurrence (s needle : string) :
  includes s needle = true ↔
  ∃ before after, s = before +:+ needle +:+ after.
Proof.
  induction s as [|c s IH]; cbn [includes].
  - rewrite orb_false_r, prefix_app. split.
    + intros [rest Hrest]. by exists "", rest.
    + intros [[|b before] [after H]]; [by exists after | discriminate].
  - rewrite orb_true_iff, prefix_app, IH. split.
    + intros [[rest Hrest] | (before & after & H)].
      * by exists "", rest.
      * exists (String c before), after. simpl. by rewrite H.
    + intros [[|b before] [after H]].
      * left. by exists after.
      * right. exists before, after. simpl in H. by injection H.
Qed.

Lemma toLowerCase_app (a b : string) :
  toLowerCase (a +:+ b) = toLowerCase a +:+ toLowerCase b.
Proof. induction a as [|c a IH]; simpl; [done | by rewrite IH]. Qed.

(** A split of the lower-cased text comes from a split of the text. *)
Lemma toLowerCase_split (s a b : string) :
  toLowerCase s = a +:+ b →
  ∃ a' b', s = a' +:+ b' ∧ toLowerCase a' = a ∧ toLowerCase b' = b.
Proof.
  revert s. induction a as [|c a IH]; intros s H; simpl in H.
  - by exists "", s.
  - destruct s as [|d s]; [discriminate|].
    simpl in H. injection H as Hc Hs.
    destruct (IH _ Hs) as (a' & b' & -> & Ha & Hb).
    exists (String d a'), b'. simpl. by rewrite Hc, Ha.
Qed.

(** The text contains the word when letter case is ignored: some part of
    the text and the word have the same lower-case form. *)
Definition containsIgnoringCase (text word : string) : Prop :=
  ∃ before occurrence after,
    text = before +:+ occurrence +:+ after ∧
    toLowerCase occurrence = toLowerCase word.

Lemma includes_toLowerCase (text word : string) :
  includes (toLowerCase text) (toLowerCase word) = true ↔
  containsIgnoringCase text word.
Proof.
  rewrite includes_occurrence. split.
  - intros (before & after & H).
    apply toLowerCase_split in H as (b' & rest & -> & Hb & Hrest).
    apply toLowerCase_split in Hrest as (o' & a' & -> & Ho & Ha).
    by exists b', o', a'.
  - intros (before & occ & after & -> & Hocc).
    exists (toLowerCase before), (toLowerCase after).
    by rewrite !toLowerCase_app, Hocc.
Qed.

End StringFacts.

(** ** Profile analysis ([popup.js]) *)

Module ProfileFacts.
Import JS Popup StringFacts.

(** Sample inputs.  [formWith] is a form as [handleProfileSubmit] turns
    it into [formData]: no contribution, no derived field. *)
Definition formWith (entity nature : string) (amount : float)
    (gstState : string) (previous : bool) : Profile :=
  {| clientName := "Acme Traders";
     entityType := entity;
     businessNature := nature;
     financialYear := "2024-25";
     turnover := amount;
     gstStatus := gstState;
     accountingMethod := "accrual";
     previousYearAvailable := previous;
     profileDate := "2025-04-01T00:00:00.000Z";
     contribution := None;
     auditApplicable := None;
     requiredDocuments := None;
     complianceRequirements := None |}.

Definition withContribution (c : float) (p : Profile) : Profile :=
  {| clientName := clientName p;
     entityType := entityType p;
     businessNature := businessNature p;
     financialYear := financialYear p;
     turnover := turnover p;
     gstStatus := gstStatus p;
     accountingMethod := accountingMethod p;
     previousYearAvailable := previousYearAvailable p;
     profileDate := profileDate p;
     contribution := Some c;
     auditApplicable := auditApplicable p;
     requiredDocuments := requiredDocuments p;
     complianceRequirements := complianceRequirements p |}.

(** The entity types that have a rule of their own. *)
Definition hasOwnRule (entity : string) : Prop :=
  entity = "private" ∨ entity = "public" ∨ entity = "llp" ∨ entity = "partnership".

Example private_zero_turnover :
  isAuditApplicable (formWith "private" "Trading" 0 "unregistered" false) = true.
Proof. reflexivity. Qed.

Example llp_at_threshold :
  isAuditApplicable (formWith "llp" "Consulting" 4000000 "registered" false) = false.
Proof. reflexivity. Qed.

Example llp_by_contribution :
  isAuditApplicable
    (withContribution 2500001 (formWith "llp" "Consulting" 100 "registered" false)) = true.
Proof. reflexivity. Qed.

Example professional_above_threshold :
  isAuditApplicable
    (formWith "individual" "Legal PROFESSION" 6000000 "unregistered" false) = true.
Proof. reflexivity. Qed.

Example business_between_thresholds :
  isAuditApplicable
    (formWith "proprietorship" "Retail" 6000000 "unregistered" false) = false.
Proof. reflexivity. Qed.

Lemma eqb_neq (a b : string) : a ≠ b → String.eqb a b = false.
Proof. intros H. by apply String.eqb_neq. Qed.

Lemma no_own_rule (entity : string) :
  ¬ hasOwnRule entity →
  String.eqb entity "private" = false ∧ String.eqb entity "public" = false ∧
  String.eqb entity "llp" = false ∧ String.eqb entity "partnership" = false.
Proof.
  unfold hasOwnRule. intros H.
  repeat split; apply eqb_neq; intros ->; tauto.
Qed.

Lemma includes_profession (text : string) :
  includes (toLowerCase text) "profession" = true ↔
  containsIgnoringCase text "profession".
Proof. exact (includes_toLowerCase text "profession"). Qed.

(** C1.  [isAuditApplicable] applies the first rule that matches, in this
    order: a private or public company is always subject to audit; an LLP
    when its turnover exceeds 4,000,000 or its contribution exceeds
    2,500,000 (strictly: a turnover of exactly 4,000,000 with a
    contribution that is not above its threshold gives false); a
    partnership when its turnover exceeds 10,000,000; any other entity
    when its turnover exceeds 5,000,000 if the nature of business
    contains "profession" in any letter case, and 10,000,000 if not. *)
Theorem isAuditApplicable_first_match (p : Profile) :
  (entityType p = "private" ∨ entityType p = "public" →
     isAuditApplicable p = true) ∧
  (entityType p = "llp" →
     isAuditApplicable p =
     gt (turnover p) 4000000 || gt (toNumber (contribution p)) 2500000) ∧
  (entityType p = "llp" → turnover p = 4000000 →
     gt (toNumber (contribution p)) 2500000 = false →
     isAuditApplicable p = false) ∧
  (entityType p = "partnership" →
     isAuditApplicable p = gt (turnover p) 10000000) ∧
  (¬ hasOwnRule (entityType p) →
     containsIgnoringCase (businessNature p) "profession" →
     isAuditApplicable p = gt (turnover p) 5000000) ∧
  (¬ hasOwnRule (entityType p) →
     ¬ containsIgnoringCase (businessNature p) "profession" →
     isAuditApplicable p = gt (turnover p) 10000000).
Proof.
  unfold isAuditApplicable. cbv zeta.
  split; [|split; [|split; [|split; [|split]]]].
  - intros [-> | ->]; reflexivity.
  - intros ->. reflexivity.
  - intros -> -> Hc. rewrite Hc. reflexivity.
  - intros ->. reflexivity.
  - intros Hother Hprof.
    destruct (no_own_rule _ Hother) as (-> & -> & -> & ->).
    apply includes_profession in Hprof.
    cbn [orb]. by rewrite Hprof.
  - intros Hother Hprof.
    destruct (no_own_rule _ Hother) as (-> & -> & -> & ->).
    cbn [orb].
    destruct (includes _ _) eqn:Hinc; [|done].
    by apply includes_profession in Hinc.
Qed.

Lemma isAuditApplicable_first_match_witness :
  isAuditApplicable (formWith "public" "Trading" 0 "unregistered" false) = true ∧
  isAuditApplicable (formWith "llp" "Consulting" 4000000 "registered" false) = false ∧
  isAuditApplicable (formWith "partnership" "Trading" 12000000 "registered" true) = true ∧
  isAuditApplicable
    (formWith "individual" "Legal PROFESSION" 6000000 "unregistered" false) = true ∧
  isAuditApplicable
    (formWith "proprietorship" "Retail" 6000000 "unregistered" false) = false.
Proof.
  split; [|split; [|split; [|split]]];
    lazymatch goal with
    | |- isAuditApplicable ?p = _ =>
        destruct (isAuditApplicable_first_match p)
          as (Hcompany & _ & Hllp & Hpartnership & Hprofession & Hbusiness)
    end.
  - apply Hcompany. by right.
  - apply Hllp; reflexivity.
  - rewrite Hpartnership; reflexivity.
  - rewrite Hprofession; [reflexivity | |].
    + unfold hasOwnRule; simpl. intros [?|[?|[?|?]]]; discriminate.
    + by exists "Legal ", "PROFESSION", "".
  - rewrite Hbusiness; [reflexivity | |].
    + unfold hasOwnRule; simpl. intros [?|[?|[?|?]]]; discriminate.
    + intros Hc. apply includes_profession in Hc. discriminate.
Defined.

(** *** Required documents and compliance flags *)

Definition when_ {A} (b : bool) (d : A) : list A := if b then [d] else [].

Lemma pushIf_when {A} (b : bool) (d : A) (l : list A) :
  pushIf b d l = l ++ when_ b d.
Proof. destruct b; simpl; [done | by rewrite app_nil_r]. Qed.

(** On the profile it is given, [determineRequiredDocuments] returns the
    three mandatory documents and the conditional entries, each under its
    own condition and in the order of the source. *)
Lemma determineRequiredDocuments_shape (p : Profile) :
  mandatory (determineRequiredDocuments p)
  = ["balanceSheet"; "profitLoss"; "trialBalance"] ∧
  conditional (determineRequiredDocuments p)
  = when_ (String.eqb (gstStatus p) "registered") gstReturns
    ++ when_ (gt (turnover p) 5000000) bankStatements
    ++ when_ (previousYearAvailable p) previousYear
    ++ when_ (truthy (auditApplicable p)) auditReport.
Proof.
  split; [reflexivity|].
  unfold determineRequiredDocuments; cbn [conditional].
  rewrite !pushIf_when. cbn [app]. by rewrite <- !app_assoc.
Qed.

Lemma analyzeClientProfile_requiredDocuments (formData : Profile) :
  requiredDocuments (analyzeClientProfile formData)
  = Some (determineRequiredDocuments formData).
Proof. reflexivity. Qed.

(** [formData] has no [auditApplicable] when [analyzeClientProfile] hands
    it to [determineRequiredDocuments], so the audit-report entry is
    never listed. *)
Lemma analyzeClientProfile_never_lists_auditReport (formData : Profile) :
  auditApplicable formData = None →
  auditReport ∉ conditional (determineRequiredDocuments formData).
Proof.
  intros Hnone.
  destruct (determineRequiredDocuments_shape formData) as [_ ->].
  rewrite Hnone. cbn [truthy when_]. rewrite app_nil_r.
  rewrite !elem_of_app.
  intros [H | [H | H]];
    [destruct (String.eqb _ _) | destruct (gt _ _)
     | destruct (previousYearAvailable _)];
    cbn [when_] in H;
    first [ by apply elem_of_nil in H
          | apply list_elem_of_singleton in H; discriminate ].
Qed.

(** The end-to-end scenario of the specification: a registered
    partnership with a turnover of 12,000,000 and previous-year data. *)
Definition partnershipForm : Profile :=
  formWith "partnership" "Trading" 12000000 "registered" true.

(** C2.  On the partnership scenario audit is applicable, and the derived
    conditional documents are the GST returns, the bank statements and
    the previous-year financials only: the audit report is not listed. *)
Theorem analyzeClientProfile_omits_auditReport :
  auditApplicable (analyzeClientProfile partnershipForm) = Some true ∧
  requiredDocuments (analyzeClientProfile partnershipForm)
  = Some {| mandatory := ["balanceSheet"; "profitLoss"; "trialBalance"];
            conditional := [gstReturns; bankStatements; previousYear] |}.
Proof. split; reflexivity. Qed.

(** On the profile it is given, [determineCompliance] sets the five
    flags as the source writes them. *)
Lemma determineCompliance_flags (p : Profile) :
  incomeTax (determineCompliance p) = true ∧
  (gst (determineCompliance p) = true ↔ gstStatus p = "registered") ∧
  tds (determineCompliance p) = gt (turnover p) 10000000 ∧
  audit (determineCompliance p) = auditApplicable p ∧
  (mca (determineCompliance p) = true ↔
   entityType p = "private" ∨ entityType p = "public" ∨ entityType p = "llp").
Proof.
  split; [reflexivity|]. split; [apply String.eqb_eq|].
  split; [reflexivity|]. split; [reflexivity|].
  cbn [mca determineCompliance arrayIncludes existsb].
  rewrite orb_false_r, !orb_true_iff, !String.eqb_eq. tauto.
Qed.

(** C3.  On the partnership scenario audit is applicable, and the derived
    compliance flags are [gst], [incomeTax] and [tds] true, [mca] false,
    while [audit] is left undefined instead of true. *)
Theorem analyzeClientProfile_audit_flag_undefined :
  auditApplicable (analyzeClientProfile partnershipForm) = Some true ∧
  complianceRequirements (analyzeClientProfile partnershipForm)
  = Some {| gst := true; incomeTax := true; tds := true;
            audit := None; mca := false |}.
Proof. split; reflexivity. Qed.

(** The audit flag is undefined for every submitted form. *)
Lemma analyzeClientProfile_audit_flag (formData : Profile) :
  auditApplicable formData = None →
  audit <$> complianceRequirements (analyzeClientProfile formData) = Some None.
Proof. intros H. cbn. by rewrite H. Qed.

(** *** Malformed input *)

(** A turnover that is a finite, non-negative number. *)
Definition finiteNonNegative (x : float) : bool :=
  PrimFloat.leb 0 x && PrimFloat.ltb x infinity.

(** An empty turnover field: [parseFloat] gives [NaN]. *)
Definition nanForm : Profile :=
  formWith "private" "Trading" nan "unregistered" false.

(** A negative turnover and an entity type that is no member of any
    enumeration. *)
Definition unknownEntityForm : Profile :=
  formWith "" "Trading" (-1) "unregistered" false.

(** C4, counterexample.  A profile whose turnover is [NaN] and a profile
    with a negative turnover and an empty entity type are both analysed:
    the call returns a profile, with the malformed fields kept. *)
Lemma analyzeClientProfile_accepts_malformed :
  finiteNonNegative (turnover nanForm) = false ∧
  analyzeClientProfile nanForm
  = {| clientName := "Acme Traders";
       entityType := "private";
       businessNature := "Trading";
       financialYear := "2024-25";
       turnover := nan;
       gstStatus := "unregistered";
       accountingMethod := "accrual";
       previousYearAvailable := false;
       profileDate := "2025-04-01T00:00:00.000Z";
       contribution := None;
       auditApplicable := Some true;
       requiredDocuments :=
         Some {| mandatory := ["balanceSheet"; "profitLoss"; "trialBalance"];
                 conditional := [] |};
       complianceRequirements :=
         Some {| gst := false; incomeTax := true; tds := false;
                 audit := None; mca := true |} |} ∧
  finiteNonNegative (turnover unknownEntityForm) = false ∧
  ¬ hasOwnRule (entityType unknownEntityForm) ∧
  analyzeClientProfile unknownEntityForm
  = {| clientName := "Acme Traders";
       entityType := "";
       businessNature := "Trading";
       financialYear := "2024-25";
       turnover := -1;
       gstStatus := "unregistered";
       accountingMethod := "accrual";
       previousYearAvailable := false;
       profileDate := "2025-04-01T00:00:00.000Z";
       contribution := None;
       auditApplicable := Some false;
       requiredDocuments :=
         Some {| mandatory := ["balanceSheet"; "profitLoss"; "trialBalance"];
                 conditional := [] |};
       complianceRequirements :=
         Some {| gst := false; incomeTax := true; tds := false;
                 audit := None; mca := false |} |}.
Proof.
  split; [reflexivity|]. split; [reflexivity|]. split; [reflexivity|].
  split; [|reflexivity].
  unfold hasOwnRule; simpl. intros [?|[?|[?|?]]]; discriminate.
Qed.

(** A turnover that is not a finite non-negative number exceeds no
    positive threshold, unless it is [Infinity]. *)
Lemma malformed_comparison (x threshold : float) :
  finiteNonNegative x = false →
  PrimFloat.ltb 0 threshold = true →
  gt x threshold = false ∨ Prim2SF x = S754_infinity false.
Proof.
  unfold finiteNonNegative, gt. rewrite !ltb_spec, leb_spec.
  change (Prim2SF 0) with (S754_zero false).
  change (Prim2SF infinity) with (S754_infinity false).
  destruct (Prim2SF x) as [sx|[]| |[] mx ex],
           (Prim2SF threshold) as [st|[]| |[] mt et];
    cbn; auto; try discriminate.
Qed.

Lemma bankStatements_listed (p : Profile) :
  bankStatements ∈ conditional (determineRequiredDocuments p) →
  gt (turnover p) 5000000 = true.
Proof.
  destruct (determineRequiredDocuments_shape p) as [_ ->].
  destruct (gt (turnover p) 5000000); [done|].
  destruct (String.eqb _ _), (previousYearAvailable p), (truthy _);
    cbn [when_ app]; intros Hin;
    repeat (apply elem_of_cons in Hin as [Hin|Hin]; [discriminate|]);
    by apply elem_of_nil in Hin.
Qed.

(** C4, as the code has it.  [analyzeClientProfile] validates nothing and
    has no failure outcome: for every input it returns a profile that
    carries each input field as it was given and the three derived
    fields computed from the input.  A turnover that is not a finite
    non-negative number (and is not [Infinity]) is treated as below every
    threshold: no TDS flag, no bank-statements entry, and audit only by
    the company rule or by the LLP contribution. *)
Theorem analyzeClientProfile_no_validation (formData : Profile) :
  (∃ profile,
     analyzeClientProfile formData = profile ∧
     clientName profile = clientName formData ∧
     entityType profile = entityType formData ∧
     businessNature profile = businessNature formData ∧
     financialYear profile = financialYear formData ∧
     turnover profile = turnover formData ∧
     gstStatus profile = gstStatus formData ∧
     accountingMethod profile = accountingMethod formData ∧
     previousYearAvailable profile = previousYearAvailable formData ∧
     profileDate profile = profileDate formData ∧
     contribution profile = contribution formData ∧
     auditApplicable profile = Some (isAuditApplicable formData) ∧
     requiredDocuments profile = Some (determineRequiredDocuments formData) ∧
     complianceRequirements profile = Some (determineCompliance formData)) ∧
  (finiteNonNegative (turnover formData) = false →
   Prim2SF (turnover formData) ≠ S754_infinity false →
   tds (determineCompliance formData) = false ∧
   (bankStatements ∉ conditional (determineRequiredDocuments formData)) ∧
   isAuditApplicable formData
   = ((String.eqb (entityType formData) "private"
       || String.eqb (entityType formData) "public")
      || (String.eqb (entityType formData) "llp"
          && gt (toNumber (contribution formData)) 2500000))).
Proof.
  split.
  { eexists. split; [reflexivity|]. repeat split. }
  intros Hmalformed Hfinite.
  assert (∀ threshold, PrimFloat.ltb 0 threshold = true →
                       gt (turnover formData) threshold = false) as Hbelow.
  { intros threshold Hpositive.
    by destruct (malformed_comparison _ _ Hmalformed Hpositive). }
  split; [|split].
  - by apply Hbelow.
  - intros Hlisted. apply bankStatements_listed in Hlisted.
    by rewrite Hbelow in Hlisted.
  - unfold isAuditApplicable. cbv zeta. rewrite !Hbelow by reflexivity.
    destruct (String.eqb (entityType formData) "private"),
      (String.eqb (entityType formData) "public"),
      (String.eqb (entityType formData) "llp"),
      (String.eqb (entityType formData) "partnership"),
      (includes (toLowerCase (businessNature formData)) "profession");
      reflexivity.
Qed.

Lemma analyzeClientProfile_no_validation_witness :
  tds (determineCompliance unknownEntityForm) = false ∧
  (bankStatements ∉ conditional (determineRequiredDocuments unknownEntityForm)) ∧
  isAuditApplicable unknownEntityForm = false.
Proof.
  destruct (analyzeClientProfile_no_validation unknownEntityForm) as [_ Hbelow].
  apply Hbelow.
  - reflexivity.
  - change (Prim2SF (turnover unknownEntityForm))
      with (S754_finite true 4503599627370496 (-52)).
    discriminate.
Defined.

(** *** The submitted form *)

Section Submission.

Variable parseFloat : string → float.
Variable toISOString : Date → string.

Lemma gt_undefined (threshold : float) :
  gt (toNumber None) threshold = false.
Proof.
  unfold gt, toNumber. rewrite ltb_spec.
  change (Prim2SF nan) with S754_nan.
  by destruct (Prim2SF threshold) as [| | |[] ? ?].
Qed.

(** C10.  The [formData] object built from the form has no
    [contribution], so the contribution comparison of the LLP rule is
    false and the rule depends on the turnover alone; the same holds for
    the profile that [handleProfileSubmit] keeps in the controller. *)
Theorem submitted_llp_decided_by_turnover
    (form : ProfileForm) (now : Date) (w : World) :
  let submitted := formData parseFloat toISOString form now in
  contribution submitted = None ∧
  gt (toNumber (contribution submitted)) 2500000 = false ∧
  (form_entityType form = "llp" →
     isAuditApplicable submitted = gt (parseFloat (form_turnover form)) 4000000) ∧
  (form_entityType form = "llp" →
     ∃ profile,
       clientProfile (engine (handleProfileSubmit parseFloat toISOString form now w))
       = Some profile ∧
       contribution profile = None ∧
       auditApplicable profile
       = Some (gt (parseFloat (form_turnover form)) 4000000)).
Proof.
  cbv zeta. split; [reflexivity|]. split; [reflexivity|].
  assert (form_entityType form = "llp" →
          isAuditApplicable (formData parseFloat toISOString form now)
          = gt (parseFloat (form_turnover form)) 4000000) as Hllp.
  { intros Hentity. unfold isAuditApplicable. cbn [entityType formData].
    rewrite Hentity. cbn [String.eqb Ascii.eqb Bool.eqb orb turnover contribution].
    rewrite gt_undefined. apply orb_false_r. }
  split; [exact Hllp|].
  intros Hentity. eexists. split; [reflexivity|].
  split; [reflexivity|].
  cbn [auditApplicable analyzeClientProfile]. by rewrite Hllp.
Qed.

End Submission.

(** A host whose [parseFloat] reads the one amount used below. *)
Definition sampleParseFloat (text : string) : float :=
  if String.eqb text "4500000" then 4500000 else nan.

Definition llpForm : ProfileForm :=
  {| form_clientName := "Acme Advisors LLP";
     form_entityType := "llp";
     form_businessNature := "Consulting";
     form_financialYear := "2024-25";
     form_turnover := "4500000";
     form_gstStatus := "registered";
     form_accountingMethod := "accrual";
     form_previousYearAvailable := false |}.

Lemma submitted_llp_decided_by_turnover_witness :
  isAuditApplicable (formData sampleParseFloat (λ _, "2025-04-01") llpForm 0%Z)
  = true.
Proof.
  destruct (submitted_llp_decided_by_turnover sampleParseFloat (λ _, "2025-04-01")
              llpForm 0%Z (openPopup emptyStorage)) as (_ & _ & Hllp & _).
  rewrite Hllp; reflexivity.
Defined.

End ProfileFacts.

(** ** Statutory reference data ([background.js]) *)

Module ReferenceFacts.
Import JS Background.

Example fetch_unknown_source :
  fetchStatutoryData "rbi" "repo-rate" = Throw "Unauthorized data source".
Proof. vm_compute. reflexivity. Qed.

Example fetch_inherited_key :
  fetchStatutoryData "constructor" "x" = Normal (PrototypeMember "constructor").
Proof. vm_compute. reflexivity. Qed.

Example fetch_gst_goods :
  ∃ tables thresholds,
    fetchStatutoryData "gst" "registration-threshold" = Normal (Tables tables) ∧
    tables !! "registration-threshold" = Some thresholds ∧
    thresholds !! "goods" = Some (Num 4000000).
Proof. do 2 eexists. split; [reflexivity|]. split; vm_compute; reflexivity. Qed.

Lemma approved_keys (source url : string) :
  approvedSources !! source = Some url →
  (source = "income-tax" ∨ source = "gst" ∨ source = "mca" ∨ source = "icai")
  ∧ url ≠ "".
Proof.
  unfold approvedSources. intros H.
  repeat (apply lookup_insert_Some in H as [[<- <-]|[_ H]]; [split; [tauto|done]|]).
  apply lookup_singleton_Some in H as [<- <-]. split; [tauto|done].
Qed.

Lemma data_keys (source : string) (tables : gmap string (gmap string datum)) :
  data !! source = Some tables →
  source = "income-tax" ∨ source = "gst" ∨ source = "mca".
Proof.
  unfold data. intros H.
  repeat (apply lookup_insert_Some in H as [[<- _]|[_ H]]; [tauto|]).
  apply lookup_singleton_Some in H as [<- _]. tauto.
Qed.

Lemma inherited_keys (source : string) :
  source ∈ objectPrototypeProperties →
  approvedSources !! source = None ∧ data !! source = None.
Proof.
  unfold objectPrototypeProperties. intros H.
  repeat (apply elem_of_cons in H as [->|H]; [by vm_compute|]).
  by apply elem_of_nil in H.
Qed.

(** C9, counterexample.  The source "icai" is approved and has no
    table: the call returns the empty object.  A query for a threshold
    that the source does not hold returns the tables of the source, in
    which the key is missing.  Neither call fails. *)
Lemma fetchStatutoryData_miss_not_surfaced :
  data !! "icai" = None ∧
  fetchStatutoryData "icai" "membership-threshold" = Normal (Tables ∅) ∧
  ∃ tables,
    fetchStatutoryData "income-tax" "surcharge-threshold" = Normal (Tables tables) ∧
    tables !! "surcharge-threshold" = None.
Proof.
  split; [by vm_compute|]. split; [by vm_compute|].
  eexists. split; [reflexivity|]. by vm_compute.
Qed.

(** C9, as the code has it.  [fetchStatutoryData] throws only for a
    source that is neither approved nor a key inherited from
    [Object.prototype].  For every other source it returns a value and
    never reads the query: the tables of the source when it has some, the
    empty object when an approved source has none, the inherited member
    for an inherited key. *)
Theorem fetchStatutoryData_outcomes (source query : string) :
  (approvedSources !! source = None →
   source ∉ objectPrototypeProperties →
   fetchStatutoryData source query = Throw "Unauthorized data source") ∧
  (∀ tables, data !! source = Some tables →
   fetchStatutoryData source query = Normal (Tables tables)) ∧
  (is_Some (approvedSources !! source) → data !! source = None →
   fetchStatutoryData source query = Normal (Tables ∅)) ∧
  (source ∈ objectPrototypeProperties →
   fetchStatutoryData source query = Normal (PrototypeMember source)) ∧
  (∀ query', fetchStatutoryData source query' = fetchStatutoryData source query).
Proof.
  unfold fetchStatutoryData, isApproved, getStatutoryDataSimulated, getProperty.
  split; [|split; [|split; [|split]]].
  - intros -> Hproto. by rewrite bool_decide_eq_false_2.
  - intros tables Htables. rewrite Htables.
    assert (∃ url, approvedSources !! source = Some url ∧ url ≠ "") as Happroved.
    { destruct (data_keys _ _ Htables) as [-> | [-> | ->]]; by eexists. }
    destruct Happroved as (url & -> & Hurl).
    apply String.eqb_neq in Hurl. by rewrite Hurl.
  - intros [url Hurl] ->. rewrite Hurl.
    destruct (approved_keys _ _ Hurl) as [Hkeys Hne].
    apply String.eqb_neq in Hne. rewrite Hne. cbn [negb].
    rewrite bool_decide_eq_false_2; [done|].
    intros Hproto. apply inherited_keys in Hproto as [Hnone _]. congruence.
  - intros Hproto. destruct (inherited_keys _ Hproto) as [-> ->].
    by rewrite bool_decide_eq_true_2.
  - reflexivity.
Qed.

Lemma fetchStatutoryData_outcomes_witness :
  fetchStatutoryData "rbi" "repo-rate" = Throw "Unauthorized data source" ∧
  fetchStatutoryData "icai" "membership-threshold" = Normal (Tables ∅) ∧
  fetchStatutoryData "toString" "x" = Normal (PrototypeMember "toString").
Proof.
  split; [|split].
  - destruct (fetchStatutoryData_outcomes "rbi" "repo-rate") as (Hthrow & _).
    apply Hthrow.
    + by vm_compute.
    + apply (bool_decide_unpack _). by vm_compute.
  - destruct (fetchStatutoryData_outcomes "icai" "membership-threshold")
      as (_ & _ & Hempty & _).
    apply Hempty.
    + eexists. by vm_compute.
    + by vm_compute.
  - destruct (fetchStatutoryData_outcomes "toString" "x")
      as (_ & _ & _ & Hinherited & _).
    apply Hinherited. apply (bool_decide_unpack _). by vm_compute.
Defined.

End ReferenceFacts.

(** ** Document validation ([background.js]) *)

Module ValidationFacts.
Import JS Background.

(** *** Profit and loss: cash payments *)

Section ProfitLossFacts.

Variable finiteToString : float → string.

Lemma warnings_pushError (c : bool) (m : string) (r : Results) :
  warnings (when c (pushError m) r) = warnings r.
Proof. by destruct c. Qed.

Lemma warnings_disallowable (l : list Expense) (r : Results) :
  warnings
    (foldl (λ r expense,
              when (isDisallowable expense)
                (pushWarning (disallowableWarning finiteToString expense)) r)
           r l)
  = warnings r
    ++ map (disallowableWarning finiteToString) (List.filter isDisallowable l).
Proof.
  revert r. induction l as [|e l IH]; intros r; cbn [foldl List.filter map].
  - by rewrite app_nil_r.
  - rewrite IH. destruct (isDisallowable e); cbn [when pushWarning warnings map].
    + by rewrite <- app_assoc.
    + done.
Qed.

(** The warnings of [validateProfitLoss]: one for each disallowable
    expense, then the cash-payment warning when some payment counts. *)
Lemma validateProfitLoss_warnings (data : ProfitLoss) :
  warnings (validateProfitLoss finiteToString data)
  = map (disallowableWarning finiteToString)
        (List.filter isDisallowable (expenses data))
    ++ match length (List.filter isLargeCashPayment (expenses data)) with
       | O => []
       | S n => [cashPaymentWarning (S n)]
       end.
Proof.
  unfold validateProfitLoss. cbv zeta.
  destruct (length (List.filter isLargeCashPayment (expenses data))) as [|n];
    cbn [Nat.eqb negb when pushWarning warnings];
    rewrite warnings_disallowable, !warnings_pushError; cbn [warnings newResults app].
  - by rewrite app_nil_r.
  - done.
Qed.

(** A warning with the text of the cash-payment check, whatever its
    count. *)
Definition isCashFinding (w : string) : Prop :=
  ∃ count : nat,
    w = lengthToString count +:+
        " cash payments exceeding ₹10,000 found - Section 40A(3) applicable".

Lemma disallowableWarning_not_cash (e : Expense) :
  ¬ isCashFinding (disallowableWarning finiteToString e).
Proof.
  intros [count H]. unfold disallowableWarning, lengthToString in H.
  destruct (Nat.to_uint count); discriminate.
Qed.

(** C6.  An expense counts when its payment mode is "cash" and its
    amount is above 10,000.  The warnings of [validateProfitLoss] are the
    warnings of the other check, none of which has the text of a
    cash-payment warning, followed, when at least one expense counts, by
    exactly one warning that reads "<count> cash payments exceeding
    ₹10,000 found - Section 40A(3) applicable" with the number of counted
    expenses in decimal, and by nothing when there is none. *)
Theorem validateProfitLoss_cash_finding (data : ProfitLoss) :
  let count := length (List.filter isLargeCashPayment (expenses data)) in
  (∀ e, isLargeCashPayment e = true ↔
        paymentMode e = "cash" ∧ gt (amount e) 10000 = true) ∧
  ∃ others,
    (∀ w, w ∈ others → ¬ isCashFinding w) ∧
    (count = 0%nat →
     warnings (validateProfitLoss finiteToString data) = others) ∧
    ((0 < count)%nat →
     warnings (validateProfitLoss finiteToString data)
     = others ++
       [lengthToString count +:+
        " cash payments exceeding ₹10,000 found - Section 40A(3) applicable"]).
Proof.
  cbv zeta. split.
  - intros e. unfold isLargeCashPayment.
    by rewrite andb_true_iff, String.eqb_eq.
  - exists (map (disallowableWarning finiteToString)
                (List.filter isDisallowable (expenses data))).
    split; [|split].
    + intros w Hw. apply list_elem_of_fmap in Hw as (e & -> & _).
      apply disallowableWarning_not_cash.
    + intros Hcount. rewrite validateProfitLoss_warnings, Hcount.
      by rewrite app_nil_r.
    + intros Hcount. rewrite validateProfitLoss_warnings.
      destruct (length _); [lia | done].
Qed.

End ProfitLossFacts.

(** The cash payments of the specification: 5,000, 15,000 and 20,000. *)
Definition cashExpense (what : string) (value : float) : Expense :=
  {| description := what; amount := value; paymentMode := "cash" |}.

Definition threeCashPayments : ProfitLoss :=
  {| revenue := 1000000;
     directCosts := 600000;
     grossProfit := 400000;
     operatingExpenses := 40000;
     otherExpenses := 0;
     otherIncome := 0;
     netProfit := 360000;
     expenses := [ cashExpense "Stationery" 5000;
                   cashExpense "Repairs" 15000;
                   cashExpense "Freight" 20000 ] |}.

(** A stand-in for the number formatting of the host. *)
Definition sampleFiniteToString (x : float) : string := "#".

Example three_cash_payments :
  validateProfitLoss sampleFiniteToString threeCashPayments
  = {| valid := true;
       errors := [];
       warnings :=
         ["2 cash payments exceeding ₹10,000 found - Section 40A(3) applicable"];
       info := [] |}.
Proof. reflexivity. Qed.

Example cash_at_threshold_not_counted :
  isLargeCashPayment (cashExpense "Rent" 10000) = false.
Proof. reflexivity. Qed.

Lemma validateProfitLoss_cash_finding_witness :
  ∃ others,
    warnings (validateProfitLoss sampleFiniteToString threeCashPayments)
    = others ++
      ["2 cash payments exceeding ₹10,000 found - Section 40A(3) applicable"].
Proof.
  destruct (validateProfitLoss_cash_finding sampleFiniteToString threeCashPayments)
    as (_ & others & _ & _ & Hsome).
  exists others. apply Hsome. cbn. lia.
Defined.

(** *** Balance sheet: the current ratio *)

(** Division by a zero of either sign gives an infinity or [NaN]. *)
Lemma div_zero (x y : float) :
  y = 0 ∨ y = -0 →
  (∃ sign, Prim2SF (x / y) = S754_infinity sign) ∨ Prim2SF (x / y) = S754_nan.
Proof.
  intros Hy. rewrite div_spec.
  destruct Hy as [-> | ->];
    [change (Prim2SF 0) with (S754_zero false)
    |change (Prim2SF (-0)) with (S754_zero true)];
    destruct (Prim2SF x); cbn; eauto.
Qed.

Lemma lt_one_infinity (r : float) (sign : bool) :
  Prim2SF r = S754_infinity sign → lt r 1 = sign.
Proof. intros H. unfold lt. rewrite ltb_spec, H. by destruct sign. Qed.

Lemma lt_one_nan (r : float) : Prim2SF r = S754_nan → lt r 1 = false.
Proof. intros H. unfold lt. by rewrite ltb_spec, H. Qed.

(** [nearestScaled f m e] is the integer closest to [m * 2^e * 10^f], the
    larger one when two are as close. *)
Lemma nearestScaled_closest (f : nat) (m : positive) (e : Z) :
  let n := nearestScaled f m e in
  let scaled := (Z.pos m * 10 ^ Z.of_nat f)%Z in
  ((0 ≤ e)%Z → n = (scaled * 2 ^ e)%Z) ∧
  ((e < 0)%Z →
   (- 2 ^ (- e) ≤ 2 * scaled - 2 * 2 ^ (- e) * n < 2 ^ (- e))%Z).
Proof.
  cbv zeta. unfold nearestScaled. split; intros He.
  - by rewrite (proj2 (Z.leb_le 0 e) He).
  - rewrite (proj2 (Z.leb_gt 0 e) He).
    set (scaled := (Z.pos m * 10 ^ Z.of_nat f)%Z).
    assert (0 < 2 ^ (- e))%Z as Hpos by (apply Z.pow_pos_nonneg; lia).
    set (d := (2 ^ (- e))%Z) in *.
    pose proof (Z.mul_div_le (2 * scaled + d) (2 * d) ltac:(lia)).
    pose proof (Z.mul_succ_div_gt (2 * scaled + d) (2 * d) ltac:(lia)).
    lia.
Qed.

Example fixedNotation_samples :
  fixedNotation 2 33 = "0.33" ∧ fixedNotation 2 5 = "0.05" ∧
  fixedNotation 2 12345 = "123.45" ∧ fixedNotation 2 0 = "0.00" ∧
  fixedNotation 1 353 = "35.3" ∧ fixedNotation 0 3 = "3".
Proof. repeat apply conj; reflexivity. Qed.

Section BalanceSheetFacts.

Variable finiteToString : float → string.

(** On a finite number below [10^21] in magnitude, [toFixed] prints the
    sign and the closest multiple of [10^-f]. *)
Lemma toFixed_finite (f : nat) (x : float) (s : bool) (m : positive) (e : Z) :
  Prim2SF x = S754_finite s m e →
  (e < 0 ∨ Z.pos m * 2 ^ e < 10 ^ 21)%Z →
  toFixed finiteToString f x
  = (if s then "-" else "") +:+ fixedNotation f (nearestScaled f m e).
Proof.
  intros Hx Hrange. unfold toFixed. rewrite Hx.
  destruct (0 <=? e)%Z eqn:He; [|done].
  apply Z.leb_le in He.
  destruct Hrange as [Hneg | Hsmall]; [lia|].
  by rewrite (proj2 (Z.leb_gt _ _) Hsmall).
Qed.

(** The warning of the negative-assets check. *)
Definition negativeAssetsWarnings (data : BalanceSheet) : list string :=
  match negativeAssets data with
  | Some (account :: accounts) =>
      ["Negative values found in asset accounts: " +:+
       join ", " (account :: accounts)]
  | _ => []
  end.

Lemma warnings_when_pushInfo (c : bool) (m : string) (r : Results) :
  warnings (when c (pushInfo m) r) = warnings r.
Proof. by destruct c. Qed.

Lemma validateBalanceSheet_warnings (data : BalanceSheet) :
  let ratio := currentAssets data / currentLiabilities data in
  warnings (validateBalanceSheet finiteToString data)
  = negativeAssetsWarnings data
    ++ (if lt ratio 1 then [lowCurrentRatioWarning finiteToString ratio] else []).
Proof.
  cbv zeta. unfold validateBalanceSheet, negativeAssetsWarnings. cbv zeta.
  assert (∀ r, warnings (match previousYear data with
                         | Some previous =>
                             when (gt (abs ((totalAssets data - previous_totalAssets previous)
                                            / previous_totalAssets previous * 100)) 20)
                               (pushInfo ("Significant change in total assets: " +:+
                                          toFixed finiteToString 1
                                            ((totalAssets data - previous_totalAssets previous)
                                             / previous_totalAssets previous * 100)
                                          +:+ "% YoY")) r
                         | None => r
                         end) = warnings r) as ->.
  { intros r. destruct (previousYear data); [apply warnings_when_pushInfo | done]. }
  destruct (gt (abs _) 0.01), (negativeAssets data) as [[|a l]|],
    (lt (currentAssets data / currentLiabilities data) 1); reflexivity.
Qed.

(** C5, as the code has it.  The current-ratio check raises no error:
    after the warning of the negative-assets check, the warnings hold
    the liquidity warning exactly when the quotient of the two amounts
    is below 1, and its text carries [toFixed(2)] of the quotient: for a
    finite quotient [m * 2^e] below [10^21] in magnitude, the sign and
    the integer closest to a hundred times the magnitude, printed with
    two decimals.  When [currentLiabilities] is a zero, the quotient is
    an infinity or [NaN], and the warning appears exactly when the
    quotient is [-Infinity], which is then the text it prints. *)
Theorem validateBalanceSheet_current_ratio (data : BalanceSheet) :
  let ratio := currentAssets data / currentLiabilities data in
  warnings (validateBalanceSheet finiteToString data)
  = negativeAssetsWarnings data
    ++ (if lt ratio 1
        then ["Low current ratio (" +:+ toFixed finiteToString 2 ratio +:+
              "): Liquidity concern"]
        else []) ∧
  (∀ s m e,
     Prim2SF ratio = S754_finite s m e →
     (e < 0 ∨ Z.pos m * 2 ^ e < 10 ^ 21)%Z →
     ∃ n,
       toFixed finiteToString 2 ratio
       = (if s then "-" else "") +:+ fixedNotation 2 n ∧
       ((0 ≤ e)%Z → n = (Z.pos m * 100 * 2 ^ e)%Z) ∧
       ((e < 0)%Z →
        (- 2 ^ (- e) ≤ 2 * (Z.pos m * 100) - 2 * 2 ^ (- e) * n < 2 ^ (- e))%Z)) ∧
  (currentLiabilities data = 0 ∨ currentLiabilities data = -0 →
   (lt ratio 1 = true ↔ Prim2SF ratio = S754_infinity true) ∧
   (lt ratio 1 = true → toFixed finiteToString 2 ratio = "-Infinity")).
Proof.
  cbv zeta. split; [apply validateBalanceSheet_warnings|]. split.
  { intros s m e Hfinite Hrange. exists (nearestScaled 2 m e).
    split; [by apply toFixed_finite|].
    apply (nearestScaled_closest 2 m e). }
  intros Hzero.
  destruct (div_zero (currentAssets data) _ Hzero) as [[sign Hinf] | Hnan].
  - rewrite (lt_one_infinity _ _ Hinf), Hinf. split.
    + split; [by intros -> | by intros [= ->]].
    + intros ->. unfold toFixed, numberToString. by rewrite Hinf.
  - rewrite (lt_one_nan _ Hnan), Hnan. split; [split|]; discriminate.
Qed.

End BalanceSheetFacts.

(** A balanced sheet with current assets of 250,000 and no current
    liabilities. *)
Definition noCurrentLiabilities : BalanceSheet :=
  {| totalAssets := 1000000;
     totalLiabilities := 600000;
     equity := 400000;
     negativeAssets := None;
     currentAssets := 250000;
     currentLiabilities := 0;
     previousYear := None |}.

Definition withCurrent (assets liabilities : float) : BalanceSheet :=
  {| totalAssets := 1000000;
     totalLiabilities := 600000;
     equity := 400000;
     negativeAssets := None;
     currentAssets := assets;
     currentLiabilities := liabilities;
     previousYear := None |}.

(** C5, counterexample.  With [currentLiabilities] zero and positive
    current assets, the validation returns no finding at all. *)
Lemma validateBalanceSheet_zero_liabilities_no_finding :
  currentLiabilities noCurrentLiabilities = 0 ∧
  validateBalanceSheet sampleFiniteToString noCurrentLiabilities
  = {| valid := true; errors := []; warnings := []; info := [] |}.
Proof. split; reflexivity. Qed.

Example low_ratio_two_decimals :
  warnings (validateBalanceSheet sampleFiniteToString (withCurrent 100000 300000))
  = ["Low current ratio (0.33): Liquidity concern"].
Proof. reflexivity. Qed.

Example ratio_one_no_warning :
  warnings (validateBalanceSheet sampleFiniteToString (withCurrent 300000 300000)) = [].
Proof. reflexivity. Qed.

Example negative_assets_zero_liabilities :
  warnings (validateBalanceSheet sampleFiniteToString (withCurrent (-100) 0))
  = ["Low current ratio (-Infinity): Liquidity concern"].
Proof. reflexivity. Qed.

Lemma validateBalanceSheet_current_ratio_witness :
  toFixed sampleFiniteToString 2
    (currentAssets (withCurrent (-100) 0) / currentLiabilities (withCurrent (-100) 0))
  = "-Infinity".
Proof.
  destruct (validateBalanceSheet_current_ratio sampleFiniteToString
              (withCurrent (-100) 0)) as (_ & _ & Hzero).
  destruct Hzero as (_ & Htext); [by left|].
  apply Htext. reflexivity.
Defined.

End ValidationFacts.

(** ** Report assembly and the usage counter ([popup.js]) *)

Module EngineFacts.
Import JS Popup.

(** *** Report assembly *)

(** The report with its date field blanked. *)
Definition withoutDate (r : Report) : Report :=
  {| title := title r;
     report_clientName := report_clientName r;
     report_financialYear := report_financialYear r;
     reportDate := "";
     sections := sections r;
     disclaimer := disclaimer r |}.

Section ReportFacts.

Variable toLocaleDateString : Date → string.

(** [createReport] reads the stored profile and the clock, and nothing
    else of the controller. *)
Lemma createReport_reads_profile (e1 e2 : Engine) (now : Date) :
  clientProfile e1 = clientProfile e2 →
  createReport toLocaleDateString e1 now = createReport toLocaleDateString e2 now.
Proof. intros H. unfold createReport. by rewrite H. Qed.

Lemma createReport_date (e : Engine) (now : Date) (r : Report) :
  createReport toLocaleDateString e now = Normal r →
  reportDate r = toLocaleDateString now.
Proof.
  unfold createReport.
  destruct (clientProfile e) as [p|]; cbn; [|discriminate].
  destruct (complianceRequirements p); cbn; [|discriminate].
  intros H. injection H as <-. reflexivity.
Qed.

(** What [createReport] reads of the stored profile: the name and the
    financial year, whether [auditApplicable] is truthy, whether
    [gstStatus] is "registered", and the [mca] flag of
    [complianceRequirements] when that object is there. *)
Definition reportInputs (p : Profile)
    : string * string * bool * bool * option bool :=
  (clientName p, financialYear p, truthy (auditApplicable p),
   String.eqb (gstStatus p) "registered", mca <$> complianceRequirements p).

Lemma applicability_inj (a b : bool) :
  applicability a = applicability b → a = b.
Proof. by destruct a, b. Qed.

Lemma append_inj (prefix s t : string) :
  prefix +:+ s = prefix +:+ t → s = t.
Proof.
  induction prefix as [|c prefix IH]; cbn; [done|].
  intros H. injection H as H. by apply IH.
Qed.

(** C7.  Two calls of [createReport] on controllers whose stored
    profiles agree on what the function reads give the same outcome once
    the date field is blanked, whatever the two clock readings, the
    review results, the uploads, the counters and the other fields of
    the profiles are: the same report, or the same error when the
    profile or its compliance object is missing.  Nothing less will do:
    two reports that are equal up to the date come from profiles that
    agree on all of it. *)
Theorem createReport_deterministic (e1 e2 : Engine) (now1 now2 : Date) :
  (reportInputs <$> clientProfile e1 = reportInputs <$> clientProfile e2 →
   withoutDate <$> createReport toLocaleDateString e1 now1
   = withoutDate <$> createReport toLocaleDateString e2 now2) ∧
  (∀ r1 r2,
     createReport toLocaleDateString e1 now1 = Normal r1 →
     createReport toLocaleDateString e2 now2 = Normal r2 →
     withoutDate r1 = withoutDate r2 →
     reportInputs <$> clientProfile e1 = reportInputs <$> clientProfile e2).
Proof.
  unfold createReport, reportInputs. split.
  - destruct (clientProfile e1) as [p1|], (clientProfile e2) as [p2|];
      cbn; try discriminate; [|reflexivity].
    intros H. injection H as Hname Hyear Haudit Hgst Hmca.
    destruct (complianceRequirements p1) as [c1|],
             (complianceRequirements p2) as [c2|]; cbn in *;
      try discriminate; [|reflexivity].
    injection Hmca as Hmca.
    unfold withoutDate. cbn. by rewrite Hname, Hyear, Haudit, Hgst, Hmca.
  - intros r1 r2.
    destruct (clientProfile e1) as [p1|], (clientProfile e2) as [p2|];
      cbn; try discriminate.
    destruct (complianceRequirements p1) as [c1|],
             (complianceRequirements p2) as [c2|]; cbn; try discriminate.
    intros H1 H2. injection H1 as <-. injection H2 as <-.
    unfold withoutDate. cbn. intros H.
    injection H as Hname Hyear _ Haudit Hgst Hmca.
    apply applicability_inj in Haudit, Hmca.
    rewrite Hname, Hyear, Haudit, Hmca. do 3 f_equal.
    by destruct (String.eqb (gstStatus p1) "registered"),
                (String.eqb (gstStatus p2) "registered").
Qed.

End ReportFacts.

(** A host that prints the clock reading as one of two dates. *)
Definition sampleLocaleDate (now : Date) : string :=
  if (now <? 86400000)%Z then "1/1/1970" else "2/1/1970".

Definition sampleISODate (now : Date) : string := "1970-01-01T00:00:00.000Z".

Definition sampleForm : ProfileForm :=
  {| form_clientName := "Acme Traders";
     form_entityType := "partnership";
     form_businessNature := "Trading";
     form_financialYear := "2024-25";
     form_turnover := "4500000";
     form_gstStatus := "registered";
     form_accountingMethod := "accrual";
     form_previousYearAvailable := true |}.

(** The storage area after [initializeStorage] ran on installation. *)
Definition installed : Storage :=
  Background.initializeStorage "1970-01-01T00:00:00.000Z" "1.0.0" emptyStorage.

Definition sampleRun : World → list Event → World :=
  run ProfileFacts.sampleParseFloat sampleISODate sampleLocaleDate.

Definition profiled : World :=
  sampleRun (openPopup installed) [SubmitProfile sampleForm 0%Z].

(** The engine after the same form, but for the way it is kept and the
    time, was submitted a day later: the stored profiles differ in two
    fields that [createReport] does not read. *)
Definition profiledLater : Engine :=
  setUsageCount 7
    (engine (sampleRun (openPopup installed)
               [SubmitProfile
                  {| form_clientName := "Acme Traders";
                     form_entityType := "partnership";
                     form_businessNature := "Trading";
                     form_financialYear := "2024-25";
                     form_turnover := "4500000";
                     form_gstStatus := "registered";
                     form_accountingMethod := "cash";
                     form_previousYearAvailable := true |}
                  86400000%Z])).

Lemma createReport_deterministic_witness :
  clientProfile (engine profiled) ≠ clientProfile profiledLater ∧
  withoutDate <$> createReport sampleLocaleDate (engine profiled) 0%Z
  = withoutDate <$> createReport sampleLocaleDate profiledLater 86400000%Z ∧
  reportInputs <$> clientProfile (engine profiled)
  = reportInputs <$> clientProfile profiledLater.
Proof.
  destruct (createReport_deterministic sampleLocaleDate
              (engine profiled) profiledLater 0%Z 86400000%Z)
    as (Hsame & Hconverse).
  split; [intros H; discriminate H|].
  split.
  - apply Hsame. reflexivity.
  - eapply Hconverse; reflexivity.
Defined.

(** The engine after the same form was submitted for another client. *)
Definition profiledOther : Engine :=
  engine (sampleRun (openPopup installed)
            [SubmitProfile
               {| form_clientName := "Bharat Stores";
                  form_entityType := "partnership";
                  form_businessNature := "Trading";
                  form_financialYear := "2024-25";
                  form_turnover := "4500000";
                  form_gstStatus := "registered";
                  form_accountingMethod := "accrual";
                  form_previousYearAvailable := true |}
               0%Z]).

(** C7, counterexample.  Two controllers hold the same compliance
    outcome (audit applicability, required documents and compliance
    flags) and the same review results; the reports made from them at
    the same time differ in more than the date, in the client name and
    in the text of the first section. *)
Lemma createReport_same_outcome_other_report :
  (auditApplicable <$> clientProfile (engine profiled)
   = auditApplicable <$> clientProfile profiledOther) ∧
  (requiredDocuments <$> clientProfile (engine profiled)
   = requiredDocuments <$> clientProfile profiledOther) ∧
  (complianceRequirements <$> clientProfile (engine profiled)
   = complianceRequirements <$> clientProfile profiledOther) ∧
  reviewResults (engine profiled) = reviewResults profiledOther ∧
  ∃ r1 r2,
    createReport sampleLocaleDate (engine profiled) 0%Z = Normal r1 ∧
    createReport sampleLocaleDate profiledOther 0%Z = Normal r2 ∧
    reportDate r1 = reportDate r2 ∧
    report_clientName r1 = "Acme Traders" ∧
    report_clientName r2 = "Bharat Stores" ∧
    withoutDate r1 ≠ withoutDate r2.
Proof.
  repeat (split; [reflexivity|]).
  eexists _, _. repeat (split; [reflexivity|]).
  vm_compute. discriminate.
Qed.

Example reports_differ_in_date :
  createReport sampleLocaleDate (engine profiled) 0%Z
  ≠ createReport sampleLocaleDate (engine profiled) 86400000%Z.
Proof. vm_compute. discriminate. Qed.

(** *** The usage counter *)

Example counter_starts_at_zero :
  usageCount constructor = 0%Z ∧
  stored_usageCount installed = Some 0%Z ∧
  usageCount (engine (openPopup installed)) = 0%Z ∧
  Background.exceeded (Background.checkUsageLimit installed) = false.
Proof. repeat split. Qed.

Section CounterFacts.

Variable parseFloat : string → float.
Variable toISOString : Date → string.
Variable toLocaleDateString : Date → string.

Local Abbreviation step := (step parseFloat toISOString toLocaleDateString).
Local Abbreviation run := (run parseFloat toISOString toLocaleDateString).

(** At or above the limit [generateReport] only shows the error: no
    timer is set, and the controller and the storage area are as before. *)
Lemma generateReport_refused (w : World) :
  (maxUsage (engine w) ≤ usageCount (engine w))%Z →
  generateReport w = showNotification "Usage limit reached (99/99)" "error" w ∧
  engine (generateReport w) = engine w ∧
  storage (generateReport w) = storage w ∧
  timers (generateReport w) = timers w.
Proof.
  intros Hlimit. unfold generateReport.
  rewrite (proj2 (Z.geb_le _ _) Hlimit). repeat split.
Qed.

(** Below the limit it sets a timer and counts nothing yet. *)
Lemma generateReport_accepted (w : World) :
  (usageCount (engine w) < maxUsage (engine w))%Z →
  generateReport w = setTimeout ReportTimer w.
Proof.
  intros Hbelow. unfold generateReport.
  destruct (usageCount (engine w) >=? maxUsage (engine w))%Z eqn:Hge; [|done].
  apply Z.geb_le in Hge. lia.
Qed.

(** The timer callback adds exactly one when the report is built, and
    nothing when [createReport] throws. *)
Lemma finalizeReport_count (now : Date) (w : World) :
  usageCount (engine (finalizeReport toLocaleDateString now w))
  = match createReport toLocaleDateString (engine w) now with
    | Normal _ => (usageCount (engine w) + 1)%Z
    | Throw _ => usageCount (engine w)
    end ∧
  maxUsage (engine (finalizeReport toLocaleDateString now w)) = maxUsage (engine w) ∧
  timers (finalizeReport toLocaleDateString now w) = timers w.
Proof.
  unfold finalizeReport.
  by destruct (createReport toLocaleDateString (engine w) now).
Qed.

(** The counter and the reports still to be counted fit under the limit. *)
Definition withinLimit (w : World) : Prop :=
  maxUsage (engine w) = 99%Z ∧
  (0 ≤ usageCount (engine w))%Z ∧
  (usageCount (engine w) + Z.of_nat (length (timers w)) ≤ 99)%Z.

(** Every request for a report is made when no timer is pending. *)
Fixpoint oneAtATime (w : World) (events : list Event) : Prop :=
  match events with
  | [] => True
  | event :: events' =>
      (event = ClickGenerateReport → timers w = []) ∧
      oneAtATime (step w event) events'
  end.

Lemma step_withinLimit (w : World) (event : Event) :
  withinLimit w →
  (event = ClickGenerateReport → timers w = []) →
  withinLimit (step w event).
Proof.
  intros (Hmax & Hlow & Hhigh) Hidle. destruct event as [form now| |now]; cbn [step].
  - done.
  - specialize (Hidle eq_refl). unfold generateReport.
    destruct (usageCount (engine w) >=? maxUsage (engine w))%Z eqn:Hge.
    + done.
    + rewrite Z.geb_leb in Hge. apply Z.leb_gt in Hge.
      unfold withinLimit; cbn [engine timers setTimeout].
      rewrite Hidle. cbn [app length]. lia.
  - destruct (timers w) as [|[] pending] eqn:Htimers; [by unfold withinLimit; rewrite Htimers|].
    destruct (finalizeReport_count now (dropTimer w)) as (Hcount & Hmax' & Htimers').
    unfold withinLimit. rewrite Hcount, Hmax', Htimers'.
    cbn [dropTimer engine timers]. rewrite Htimers. cbn [tail length] in *.
    destruct (createReport _ _ _); lia.
Qed.

(** When each report is finalized before the next one is requested, the
    counter stays between 0 and 99. *)
Lemma run_withinLimit (events : list Event) (w : World) :
  withinLimit w → oneAtATime w events → withinLimit (run w events).
Proof.
  revert w. induction events as [|event events IH]; intros w Hw Hone; [done|].
  destruct Hone as [Hidle Hrest]. cbn [Popup.run foldl].
  apply IH; [by apply step_withinLimit | done].
Qed.

End CounterFacts.

(** One report: the button, then its timer. *)
Definition oneReport : list Event := [ClickGenerateReport; TimerFires 0%Z].

(** Ninety-eight reports, one at a time, then the button twice before
    the first of the two timers runs. *)
Definition twoRequestsAtNinetyEight : list Event :=
  SubmitProfile sampleForm 0%Z
  :: concat (replicate 98 oneReport)
  ++ [ClickGenerateReport; ClickGenerateReport; TimerFires 0%Z; TimerFires 0%Z].

(** C8.  From a fresh installation the counter starts at 0 and is 98
    after ninety-eight reports; two requests made before the first of
    them is finalized are both accepted, and the counter ends at 100, in
    the controller and in the storage area, where [checkUsageLimit] then
    reads a remaining allowance of -1. *)
Theorem usageCount_passes_limit :
  usageCount (engine (openPopup installed)) = 0%Z ∧
  usageCount
    (engine (sampleRun (openPopup installed)
               (SubmitProfile sampleForm 0%Z :: concat (replicate 98 oneReport))))
  = 98%Z ∧
  usageCount (engine (sampleRun (openPopup installed) twoRequestsAtNinetyEight))
  = 100%Z ∧
  stored_usageCount (storage (sampleRun (openPopup installed) twoRequestsAtNinetyEight))
  = Some 100%Z ∧
  Background.checkUsageLimit
    (storage (sampleRun (openPopup installed) twoRequestsAtNinetyEight))
  = {| Background.current := 100;
       Background.max := 99;
       Background.remaining := -1;
       Background.exceeded := true |}.
Proof. repeat apply conj; vm_compute; reflexivity. Qed.

Example ninety_nine_reports_then_refused :
  let w := sampleRun (openPopup installed)
             (SubmitProfile sampleForm 0%Z
              :: concat (replicate 99 oneReport) ++ oneReport) in
  usageCount (engine w) = 99%Z ∧
  last (notifications w) = Some ("Usage limit reached (99/99)", "error").
Proof. split; vm_compute; reflexivity. Qed.

End EngineFacts.


(** ** The order of numbers *)

Module OrderFacts.
Import JS.

Lemma SFltb_leb_trans (x y z : spec_float) :
  SFltb x y = true → SFleb y z = true → SFltb x z = true.
Proof.
  unfold SFltb, SFleb.
  destruct x as [sx|sx| |sx mx ex], y as [sy|sy| |sy my ey], z as [sz|sz| |sz mz ez];
    cbn; try discriminate; try reflexivity;
    repeat match goal with
           | s : bool |- _ => destruct s
           end; cbn; try discriminate; try reflexivity;
    change (Pos.compare_cont Eq) with Pos.compare;
    destruct (Z.compare_spec ex ey), (Z.compare_spec ey ez), (Z.compare_spec ex ez);
    cbn; try discriminate; try reflexivity; try lia;
    destruct (Pos.compare_spec mx my), (Pos.compare_spec my mz), (Pos.compare_spec mx mz);
    cbn; try discriminate; try reflexivity; try lia.
Qed.

Lemma SFltb_leb (x y : spec_float) : SFltb x y = true → SFleb x y = true.
Proof. unfold SFltb, SFleb. by destruct (SFcompare x y) as [[]|]. Qed.

(** [threshold < x] and [x <= y] give [threshold < y]. *)
Lemma gt_leb_trans (x y threshold : float) :
  gt x threshold = true → PrimFloat.leb x y = true → gt y threshold = true.
Proof.
  unfold gt. rewrite !ltb_spec, leb_spec. apply SFltb_leb_trans.
Qed.

(** A number above a threshold is above every smaller threshold. *)
Lemma gt_smaller_threshold (x low high : float) :
  PrimFloat.ltb low high = true → gt x high = true → gt x low = true.
Proof.
  unfold gt. rewrite !ltb_spec. intros Hlow Hhigh.
  apply (SFltb_leb_trans _ (Prim2SF high)); [done | by apply SFltb_leb].
Qed.

End OrderFacts.

(** ** Derived fields of a profile ([popup.js]) *)

Module DerivationFacts.
Import JS Popup OrderFacts.

Definition withTurnover (amount : float) (p : Profile) : Profile :=
  {| clientName := clientName p;
     entityType := entityType p;
     businessNature := businessNature p;
     financialYear := financialYear p;
     turnover := amount;
     gstStatus := gstStatus p;
     accountingMethod := accountingMethod p;
     previousYearAvailable := previousYearAvailable p;
     profileDate := profileDate p;
     contribution := contribution p;
     auditApplicable := auditApplicable p;
     requiredDocuments := requiredDocuments p;
     complianceRequirements := complianceRequirements p |}.

(** X1.  Audit applicability is monotone in the turnover: when audit is
    applicable to a profile, it is applicable to the same profile with
    any turnover that is at least as large. *)
Theorem isAuditApplicable_monotone (p : Profile) (larger : float) :
  PrimFloat.leb (turnover p) larger = true →
  isAuditApplicable p = true →
  isAuditApplicable (withTurnover larger p) = true.
Proof.
  intros Hle. unfold isAuditApplicable. cbn [entityType turnover contribution
    businessNature withTurnover].
  destruct (String.eqb (entityType p) "private" || String.eqb (entityType p) "public");
    [done|].
  assert (∀ threshold, gt (turnover p) threshold = true → gt larger threshold = true)
    as Hup by (intros threshold H; exact (gt_leb_trans _ _ _ H Hle)).
  destruct (String.eqb (entityType p) "llp").
  { rewrite !orb_true_iff. intros [H|H]; [left; by apply Hup | by right]. }
  destruct (String.eqb (entityType p) "partnership"); [apply Hup|].
  destruct (includes _ _); apply Hup.
Qed.

Lemma isAuditApplicable_monotone_witness :
  isAuditApplicable
    (withTurnover 20000000
       (ProfileFacts.formWith "partnership" "Trading" 12000000 "registered" true))
  = true.
Proof.
  apply (isAuditApplicable_monotone
           (ProfileFacts.formWith "partnership" "Trading" 12000000 "registered" true)
           20000000); reflexivity.
Defined.

(** X2.  A profile that gets the TDS flag (turnover above 10,000,000) is
    subject to audit whatever its entity type and nature of business,
    and the bank statements are among its conditional documents. *)
Theorem tds_implies_audit_and_bankStatements (p : Profile) :
  tds (determineCompliance p) = true →
  isAuditApplicable p = true ∧
  bankStatements ∈ conditional (determineRequiredDocuments p).
Proof.
  cbn [tds determineCompliance]. intros Htds.
  assert (gt (turnover p) 5000000 = true) as H5
    by (by apply (gt_smaller_threshold _ 5000000 10000000)).
  assert (gt (turnover p) 4000000 = true) as H4
    by (by apply (gt_smaller_threshold _ 4000000 10000000)).
  split.
  - unfold isAuditApplicable. cbv zeta. rewrite Htds, H5, H4.
    repeat match goal with
           | |- context [if ?b then _ else _] => destruct b
           end; reflexivity.
  - destruct (ProfileFacts.determineRequiredDocuments_shape p) as [_ ->].
    rewrite H5. cbn [ProfileFacts.when_]. rewrite !elem_of_app.
    right. left. apply list_elem_of_singleton. reflexivity.
Qed.

Lemma tds_implies_audit_and_bankStatements_witness :
  isAuditApplicable
    (ProfileFacts.formWith "individual" "Retail" 10000001 "unregistered" false) = true.
Proof.
  apply (tds_implies_audit_and_bankStatements
           (ProfileFacts.formWith "individual" "Retail" 10000001 "unregistered" false)).
  reflexivity.
Defined.

(** The four conditional entries, in the order of the source. *)
Definition allConditional : list ConditionalDocument :=
  [gstReturns; bankStatements; previousYear; auditReport].

Lemma when_sublist {A} (b : bool) (d : A) : sublist (ProfileFacts.when_ b d) [d].
Proof. destruct b; [done | apply sublist_nil_l]. Qed.

(** X3.  Whatever the profile, the conditional documents are a selection
    of the four entries in their fixed order, so there are at most four
    and the identifiers of the entries (used as element ids of the upload
    form) are pairwise different from each other and from the three
    mandatory names. *)
Theorem conditional_documents_selection (p : Profile) :
  sublist (conditional (determineRequiredDocuments p)) allConditional ∧
  length (conditional (determineRequiredDocuments p)) ≤ 4 ∧
  NoDup (mandatory (determineRequiredDocuments p)
         ++ (doc_id <$> conditional (determineRequiredDocuments p))).
Proof.
  assert (sublist (conditional (determineRequiredDocuments p)) allConditional) as Hsub.
  { destruct (ProfileFacts.determineRequiredDocuments_shape p) as [_ ->].
    change allConditional
      with ([gstReturns] ++ [bankStatements] ++ [previousYear] ++ [auditReport]).
    repeat apply sublist_app; apply when_sublist. }
  split; [exact Hsub|]. split.
  - apply sublist_length in Hsub. exact Hsub.
  - destruct (ProfileFacts.determineRequiredDocuments_shape p) as [-> _].
    apply (sublist_NoDup _
             (["balanceSheet"; "profitLoss"; "trialBalance"] ++ (doc_id <$> allConditional))).
    + apply (bool_decide_unpack _). by vm_compute.
    + apply sublist_app; [done|]. by apply fmap_sublist.
Qed.

Lemma auditReport_listed (p : Profile) :
  auditReport ∈ conditional (determineRequiredDocuments p) ↔
  truthy (auditApplicable p) = true.
Proof.
  destruct (ProfileFacts.determineRequiredDocuments_shape p) as [_ ->].
  destruct (truthy (auditApplicable p)).
  - split; [done|]. intros _. rewrite !elem_of_app. do 3 right.
    by apply list_elem_of_singleton.
  - split; [|done].
    destruct (String.eqb _ _), (gt _ _), (previousYearAvailable p);
      cbn [ProfileFacts.when_ app]; intros Hin;
      repeat (apply elem_of_cons in Hin as [Hin|Hin]; [discriminate|]);
      by apply elem_of_nil in Hin.
Qed.

Lemma isAuditApplicable_analyzed (formData : Profile) :
  isAuditApplicable (analyzeClientProfile formData) = isAuditApplicable formData.
Proof. reflexivity. Qed.

(** X4.  Analysing an analysed profile once more gives the audit fields
    that the first pass leaves out: the audit flag of the compliance
    object is the audit result, and the audit report is listed exactly
    when audit is applicable.  So the analysis is not idempotent: for a
    submitted form, which carries no audit field, the second pass
    differs from the first. *)
Theorem second_analysis_completes_audit (formData : Profile) :
  let once := analyzeClientProfile formData in
  let twice := analyzeClientProfile once in
  auditApplicable twice = Some (isAuditApplicable formData) ∧
  complianceRequirements twice
  = Some {| gst := String.eqb (gstStatus formData) "registered";
            incomeTax := true;
            tds := gt (turnover formData) 10000000;
            audit := Some (isAuditApplicable formData);
            mca := arrayIncludes ["private"; "public"; "llp"] (entityType formData) |} ∧
  (∃ documents,
     requiredDocuments twice = Some documents ∧
     (auditReport ∈ conditional documents ↔ isAuditApplicable formData = true)) ∧
  (auditApplicable formData = None → twice ≠ once).
Proof.
  cbv zeta. split; [reflexivity|]. split; [reflexivity|]. split.
  - eexists. split; [reflexivity|]. by rewrite auditReport_listed.
  - intros Hnone Heq.
    apply (f_equal (λ q, audit <$> complianceRequirements q)) in Heq.
    change (Some (Some (isAuditApplicable formData)) = Some (auditApplicable formData))
      in Heq.
    rewrite Hnone in Heq. discriminate.
Qed.

Lemma second_analysis_completes_audit_witness :
  analyzeClientProfile (analyzeClientProfile ProfileFacts.partnershipForm)
  ≠ analyzeClientProfile ProfileFacts.partnershipForm.
Proof.
  destruct (second_analysis_completes_audit ProfileFacts.partnershipForm)
    as (_ & _ & _ & Hdiffer).
  apply Hdiffer. reflexivity.
Defined.

End DerivationFacts.

(** ** The popup session ([popup.js]) *)

Module SessionFacts.
Import JS Popup EngineFacts.

Section Session.

Variable parseFloat : string → float.
Variable toISOString : Date → string.
Variable toLocaleDateString : Date → string.

Local Abbreviation step := (step parseFloat toISOString toLocaleDateString).
Local Abbreviation run := (run parseFloat toISOString toLocaleDateString).

(** The requests for a report among the events. *)
Definition requests (events : list Event) : nat :=
  length (List.filter (λ event, match event with
                                | ClickGenerateReport => true
                                | _ => false
                                end) events).

Lemma step_counter (w : World) (event : Event) :
  maxUsage (engine (step w event)) = maxUsage (engine w) ∧
  (usageCount (engine w) ≤ usageCount (engine (step w event)))%Z ∧
  (usageCount (engine (step w event)) + Z.of_nat (length (timers (step w event)))
   ≤ usageCount (engine w) + Z.of_nat (length (timers w))
     + Z.of_nat (requests [event]))%Z.
Proof.
  destruct event as [form now| |now]; cbn [step requests List.filter length].
  - cbn. lia.
  - unfold generateReport.
    destruct (usageCount (engine w) >=? maxUsage (engine w))%Z;
      cbn [engine timers showNotification setTimeout]; [lia|].
    rewrite length_app. cbn [length]. lia.
  - destruct (timers w) as [|[] pending] eqn:Htimers; [rewrite Htimers; cbn; lia|].
    destruct (finalizeReport_count toLocaleDateString now (dropTimer w))
      as (-> & -> & ->).
    cbn [dropTimer engine timers]. rewrite Htimers. cbn [tail length].
    destruct (createReport _ _ _); lia.
Qed.

Lemma requests_cons (event : Event) (events : list Event) :
  requests (event :: events) = (requests [event] + requests events)%nat.
Proof. unfold requests. cbn [List.filter]. by destruct event. Qed.

(** X5.  Over any sequence of events the usage counter never decreases,
    and it grows by at most the number of reports that were pending at
    the start plus the number of requests made: a request is counted at
    most once. *)
Theorem usageCount_bounds (w : World) (events : list Event) :
  (usageCount (engine w) ≤ usageCount (engine (run w events)))%Z ∧
  (usageCount (engine (run w events))
   ≤ usageCount (engine w) + Z.of_nat (length (timers w))
     + Z.of_nat (requests events))%Z.
Proof.
  revert w. induction events as [|event events IH]; intros w.
  - cbn. lia.
  - cbn [Popup.run foldl]. rewrite requests_cons.
    destruct (step_counter w event) as (_ & Hlow & Hhigh).
    destruct (IH (step w event)) as [IHlow IHhigh].
    fold (run (step w event) events) in *. lia.
Qed.

(** X6.  Once the counter has reached the limit and no report is
    pending, no sequence of events changes it again, and no timer is
    ever set. *)
Theorem usageCount_frozen_at_limit (w : World) (events : list Event) :
  timers w = [] →
  (maxUsage (engine w) ≤ usageCount (engine w))%Z →
  usageCount (engine (run w events)) = usageCount (engine w) ∧
  timers (run w events) = [].
Proof.
  revert w. induction events as [|event events IH]; intros w Hidle Hlimit; [done|].
  cbn [Popup.run foldl].
  assert (timers (step w event) = [] ∧
          usageCount (engine (step w event)) = usageCount (engine w) ∧
          maxUsage (engine (step w event)) = maxUsage (engine w)) as (Hidle' & Hcount & Hmax).
  { destruct event as [form now| |now]; cbn [step].
    - done.
    - destruct (generateReport_refused w Hlimit) as (_ & -> & _ & ->). done.
    - by rewrite Hidle. }
  destruct (IH (step w event)) as [IHcount IHidle]; [done | lia |].
  fold (run (step w event) events) in *. split; [lia | done].
Qed.






(** No profile is submitted among the events. *)
Definition noSubmission (events : list Event) : Prop :=
  Forall (λ event, match event with
                   | SubmitProfile _ _ => False
                   | _ => True
                   end) events.

(** X9.  As long as no profile has been submitted, report requests are
    accepted but never counted: [createReport] throws in the timer
    callback, so the counter stays where it was. *)
Theorem no_profile_no_count (w : World) (events : list Event) :
  clientProfile (engine w) = None →
  noSubmission events →
  usageCount (engine (run w events)) = usageCount (engine w) ∧
  displayedReport (run w events) = displayedReport w.
Proof.
  revert w. induction events as [|event events IH]; intros w Hnone Hno; [done|].
  apply Forall_cons in Hno as [Hevent Hrest].
  cbn [Popup.run foldl].
  assert (clientProfile (engine (step w event)) = None ∧
          usageCount (engine (step w event)) = usageCount (engine w) ∧
          displayedReport (step w event) = displayedReport w) as (Hnone' & Hcount & Hshown).
  { destruct event as [form now| |now]; cbn [step]; [done| |].
    - unfold generateReport. by destruct (_ >=? _)%Z.
    - destruct (timers w) as [|[] pending]; [done|].
      unfold finalizeReport, createReport. cbn [dropTimer engine].
      rewrite Hnone. done. }
  destruct (IH (step w event) Hnone' Hrest) as [IHcount IHshown].
  fold (run (step w event) events) in *. split; congruence.
Qed.

(** The fifth section of a report. *)
Definition complianceStatus (audited registered filings : bool) : ReportSection :=
  {| rs_title := "5. Compliance Status";
     rs_content := None;
     rs_points := Some [
       "Tax Audit: " +:+ applicability audited;
       "GST Filing: " +:+ (if registered then "Regular" else "Not Applicable");
       "Income Tax Return: Filing required";
       "MCA Filings: " +:+ applicability filings ] |}.

(** X10.  After a profile has been submitted, [createReport] succeeds,
    whatever the state was before.  The report names the client and the
    year of the form, and its compliance section says that the tax audit
    is applicable exactly when [isAuditApplicable] holds of the form,
    that GST filing is regular exactly when the form says "registered",
    and that MCA filings apply exactly to private and public companies
    and LLPs. *)
Theorem report_after_submission
    (form : ProfileForm) (submitted now : Date) (w : World) :
  let data := formData parseFloat toISOString form submitted in
  ∃ report,
    createReport toLocaleDateString
      (engine (handleProfileSubmit parseFloat toISOString form submitted w)) now
    = Normal report ∧
    report_clientName report = form_clientName form ∧
    report_financialYear report = form_financialYear form ∧
    length (sections report) = 6%nat ∧
    sections report !! 4%nat
    = Some (complianceStatus
              (isAuditApplicable data)
              (String.eqb (form_gstStatus form) "registered")
              (arrayIncludes ["private"; "public"; "llp"] (form_entityType form))).
Proof.
  cbv zeta. eexists. split; [reflexivity|]. by repeat split.
Qed.

End Session.

Lemma usageCount_frozen_at_limit_witness :
  usageCount
    (engine (sampleRun (openPopup (storeUsageCount 99 installed))
               [ClickGenerateReport; TimerFires 0%Z; ClickGenerateReport]))
  = 99%Z.
Proof.
  destruct (usageCount_frozen_at_limit
              ProfileFacts.sampleParseFloat sampleISODate sampleLocaleDate
              (openPopup (storeUsageCount 99 installed))
              [ClickGenerateReport; TimerFires 0%Z; ClickGenerateReport])
    as [Hcount _].
  - reflexivity.
  - cbn. lia.
  - exact Hcount.
Defined.

Lemma no_profile_no_count_witness :
  usageCount
    (engine (sampleRun (openPopup installed)
               [ClickGenerateReport; TimerFires 0%Z; ClickGenerateReport; TimerFires 0%Z]))
  = 0%Z.
Proof.
  destruct (no_profile_no_count
              ProfileFacts.sampleParseFloat sampleISODate sampleLocaleDate
              (openPopup installed)
              [ClickGenerateReport; TimerFires 0%Z; ClickGenerateReport; TimerFires 0%Z])
    as [Hcount _].
  - reflexivity.
  - by repeat constructor.
  - exact Hcount.
Defined.

(** X7.  When the stored counter is between 0 and 99 and every report
    is finalized before the next one is requested, the counter of a popup
    opened on that storage area stays between 0 and 99, whatever else
    happens. *)
Theorem one_at_a_time_within_limit
    (parseFloat : string → float) (toISOString toLocaleDateString : Date → string)
    (s : Storage) (events : list Event) :
  (0 ≤ orZero (stored_usageCount s) ≤ 99)%Z →
  oneAtATime parseFloat toISOString toLocaleDateString (openPopup s) events →
  (0 ≤ usageCount
         (engine (run parseFloat toISOString toLocaleDateString (openPopup s) events))
   ≤ 99)%Z.
Proof.
  intros Hstored Hone.
  destruct (run_withinLimit parseFloat toISOString toLocaleDateString
              events (openPopup s)) as (_ & Hlow & Hhigh); [|done|lia].
  unfold withinLimit. cbn. lia.
Qed.

Lemma one_at_a_time_within_limit_witness :
  (0 ≤ usageCount
         (engine (sampleRun (openPopup installed)
                    (SubmitProfile sampleForm 0%Z :: oneReport ++ oneReport)))
   ≤ 99)%Z.
Proof.
  apply (one_at_a_time_within_limit
           ProfileFacts.sampleParseFloat sampleISODate sampleLocaleDate
           installed (SubmitProfile sampleForm 0%Z :: oneReport ++ oneReport)).
  - cbn. lia.
  - cbn [oneAtATime app oneReport].
    repeat (apply conj; [intros H; first [discriminate H | by vm_compute]|]).
    exact I.
Defined.

End SessionFacts.

(** ** File selection and the review ([popup.js]) *)

Module ReviewFacts.
Import JS Popup.

(** The three mandatory documents have been selected. *)
Definition allMandatorySelected (e : Engine) : Prop :=
  is_Some (uploadedDocuments e !! "balanceSheet") ∧
  is_Some (uploadedDocuments e !! "profitLoss") ∧
  is_Some (uploadedDocuments e !! "trialBalance").

Lemma checkMandatoryDocuments_enabled (e : Engine) :
  checkMandatoryDocuments e = false ↔ allMandatorySelected e.
Proof.
  unfold checkMandatoryDocuments, allMandatorySelected. cbn [forallb].
  rewrite negb_false_iff, !andb_true_iff, !bool_decide_eq_true. tauto.
Qed.

(** X11.  The process button is enabled exactly when a file has been
    selected for each of the three mandatory documents.  Selecting a file
    records its metadata under the document type, replaces an earlier
    selection for that type and touches no other type, the profile or
    the counter; a cancelled dialog changes nothing.  Hence the button,
    once enabled, stays enabled under further selections. *)
Theorem file_selection (file : option FileMeta) (documentType : string) (e : Engine) :
  (checkMandatoryDocuments e = false ↔ allMandatorySelected e) ∧
  (∀ f, file = Some f →
        uploadedDocuments (handleFileSelect file documentType e) !! documentType
        = Some f) ∧
  (∀ other, other ≠ documentType →
            uploadedDocuments (handleFileSelect file documentType e) !! other
            = uploadedDocuments e !! other) ∧
  (file = None → handleFileSelect file documentType e = e) ∧
  clientProfile (handleFileSelect file documentType e) = clientProfile e ∧
  usageCount (handleFileSelect file documentType e) = usageCount e ∧
  (checkMandatoryDocuments e = false →
   checkMandatoryDocuments (handleFileSelect file documentType e) = false).
Proof.
  split; [apply checkMandatoryDocuments_enabled|].
  split; [intros f ->; apply lookup_insert_eq|].
  assert (∀ other, is_Some (uploadedDocuments e !! other) →
                   is_Some (uploadedDocuments (handleFileSelect file documentType e)
                            !! other)) as Hkept.
  { intros other Hsome. destruct file as [f|]; [|done].
    cbn [handleFileSelect uploadedDocuments].
    destruct (decide (documentType = other)) as [->|Hne].
    - rewrite lookup_insert_eq. by eexists.
    - by rewrite lookup_insert_ne. }
  split; [|split; [|split; [|split]]].
  - intros other Hne. destruct file as [f|]; [|done].
    cbn [handleFileSelect uploadedDocuments]. by rewrite lookup_insert_ne.
  - by intros ->.
  - by destruct file.
  - by destruct file.
  - rewrite !checkMandatoryDocuments_enabled.
    intros (H1 & H2 & H3). repeat split; by apply Hkept.
Qed.

Definition sampleFile (name : string) : FileMeta :=
  {| file_name := name;
     file_size := 2048;
     file_type := "application/pdf";
     file_lastModified := 1700000000000 |}.

Definition threeSelected : Engine :=
  handleFileSelect (Some (sampleFile "tb.pdf")) "trialBalance"
    (handleFileSelect (Some (sampleFile "pl.pdf")) "profitLoss"
       (handleFileSelect (Some (sampleFile "bs.pdf")) "balanceSheet" constructor)).

Lemma file_selection_witness :
  checkMandatoryDocuments
    (handleFileSelect (Some (sampleFile "gst.pdf")) "gstReturns" threeSelected)
  = false ∧
  uploadedDocuments
    (handleFileSelect (Some (sampleFile "bs-2.pdf")) "balanceSheet" threeSelected)
  !! "balanceSheet" = Some (sampleFile "bs-2.pdf").
Proof.
  split.
  - destruct (file_selection (Some (sampleFile "gst.pdf")) "gstReturns" threeSelected)
      as (_ & _ & _ & _ & _ & _ & Hstays).
    apply Hstays. by vm_compute.
  - destruct (file_selection (Some (sampleFile "bs-2.pdf")) "balanceSheet" threeSelected)
      as (_ & Hstored & _).
    by apply Hstored.
Defined.

Example fresh_popup_process_disabled :
  checkMandatoryDocuments constructor = true ∧
  checkMandatoryDocuments
    (handleFileSelect (Some (sampleFile "pl.pdf")) "profitLoss"
       (handleFileSelect (Some (sampleFile "bs.pdf")) "balanceSheet" constructor))
  = true.
Proof. split; by vm_compute. Qed.

(** *** The compliance section and the review *)

Definition incomeTaxItem (audited : bool) : ReviewItem :=
  reviewItem "normal" "✓"
    ("Income Tax: ITR filing applicable - " +:+
     (if audited then "Audit" else "Non-audit") +:+ " case").

Definition gstItem : ReviewItem :=
  reviewItem "normal" "✓"
    "GST: Registration active, monthly/quarterly filing required".

Definition mcaItem : ReviewItem :=
  reviewItem "normal" "✓" "MCA: Annual filing requirements applicable".

(** The icon goes with the type of the item. *)
Definition wellMarked (item : ReviewItem) : bool :=
  (String.eqb (item_type item) "normal" && String.eqb (item_icon item) "✓")
  || (String.eqb (item_type item) "clarification" && String.eqb (item_icon item) "⚠")
  || (String.eqb (item_type item) "high-risk" && String.eqb (item_icon item) "✗").

Section Review.

Variable parseFloat : string → float.
Variable toISOString : Date → string.

(** X12.  For the profile kept after a submission, the compliance
    section of the review is the income-tax line, which says "Audit case"
    exactly when [isAuditApplicable] holds of the form, then the GST line
    when the form says "registered", then the MCA line for companies and
    LLPs.  The audit line "Verify applicability based on actual figures"
    never appears, also when audit is applicable: every item has type
    "normal". *)
Theorem checkCompliance_after_submission (form : ProfileForm) (now : Date) :
  let data := formData parseFloat toISOString form now in
  ∃ items,
    checkCompliance (analyzeClientProfile data)
    = Normal {| section_title := "Compliance Status"; section_items := items |} ∧
    items
    = [incomeTaxItem (isAuditApplicable data)]
      ++ ProfileFacts.when_ (String.eqb (form_gstStatus form) "registered") gstItem
      ++ ProfileFacts.when_
           (arrayIncludes ["private"; "public"; "llp"] (form_entityType form)) mcaItem ∧
    Forall (λ item, item_type item = "normal") items.
Proof.
  cbv zeta. eexists. split; [|split]; [| reflexivity |].
  - unfold checkCompliance.
    cbn [complianceRequirements analyzeClientProfile gst audit mca determineCompliance
         auditApplicable formData truthy gstStatus entityType].
    rewrite !ProfileFacts.pushIf_when. cbn [ProfileFacts.when_ pushIf].
    rewrite app_nil_r. by rewrite <- app_assoc.
  - destruct (String.eqb _ _), (arrayIncludes _ _);
      cbn [ProfileFacts.when_ app]; repeat constructor.
Qed.

Lemma checkCompliance_wellMarked (profile : Profile) (section : ReviewSection) :
  checkCompliance profile = Normal section →
  forallb wellMarked (section_items section) = true.
Proof.
  unfold checkCompliance. destruct (complianceRequirements profile) as [c|]; [|done].
  intros [= <-]. cbn [section_items].
  destruct (gst c), (truthy (audit c)), (mca c), (truthy (auditApplicable profile));
    reflexivity.
Qed.

(** The sections of every review, and the one of registered clients. *)
Definition fixedSections : gset string :=
  {[ "structuralValidation"; "profitLossReview"; "ratioAnalysis"; "compliance" ]}.

(** X13.  [performReview] throws exactly when no profile is stored or the
    stored profile has no compliance object.  Otherwise the review names
    the client and the year of the profile; its sections are the
    structural validation, the profit-and-loss review, the ratio analysis
    and the compliance status, with the GST reconciliation exactly for a
    registered client; and in every section each item carries the icon of
    its type (normal, clarification or high-risk). *)
Theorem performReview_outcome (e : Engine) (now : Date) :
  match performReview toISOString e now with
  | Throw _ =>
      clientProfile e = None ∨
      ∃ profile, clientProfile e = Some profile ∧ complianceRequirements profile = None
  | Normal review =>
      ∃ profile,
        clientProfile e = Some profile ∧
        is_Some (complianceRequirements profile) ∧
        review_clientName review = clientName profile ∧
        review_financialYear review = financialYear profile ∧
        review_timestamp review = toISOString now ∧
        dom (review_sections review)
        = fixedSections ∪ (if String.eqb (gstStatus profile) "registered"
                           then {[ "gstReview" ]} else ∅) ∧
        map_Forall (λ _ section, forallb wellMarked (section_items section) = true)
                   (review_sections review)
  end.
Proof.
  unfold performReview. destruct (clientProfile e) as [profile|]; [|by left].
  destruct (checkCompliance profile) as [section|message] eqn:Hcompliance; cbn.
  - exists profile. split; [done|]. split.
    { unfold checkCompliance in Hcompliance.
      destruct (complianceRequirements profile); [by eexists | done]. }
    do 3 (split; [done|]).
    apply checkCompliance_wellMarked in Hcompliance.
    destruct (String.eqb (gstStatus profile) "registered"); split.
    + rewrite !dom_insert_L, dom_empty_L. unfold fixedSections. set_solver.
    + repeat (apply map_Forall_insert_2; [first [exact Hcompliance | reflexivity]|]).
      apply map_Forall_empty.
    + rewrite !dom_insert_L, dom_empty_L. unfold fixedSections. set_solver.
    + repeat (apply map_Forall_insert_2; [first [exact Hcompliance | reflexivity]|]).
      apply map_Forall_empty.
  - right. exists profile. split; [done|].
    unfold checkCompliance in Hcompliance.
    by destruct (complianceRequirements profile).
Qed.

(** X14.  Processing the documents is refused under the same condition
    as a report request and never counts as a usage: neither the request
    nor its callback changes the usage counter, the stored counter, the
    profile or the pending timers.  When the review is built, it is kept
    in the controller and in the storage area alike; when
    [performReview] throws, nothing changes. *)
Theorem processing_keeps_counter (now : Date) (w : World) :
  let processed := finishProcessing toISOString now w in
  ((processDocuments w).2 = false ↔
   (maxUsage (engine w) ≤ usageCount (engine w))%Z) ∧
  engine (processDocuments w).1 = engine w ∧
  storage (processDocuments w).1 = storage w ∧
  usageCount (engine processed) = usageCount (engine w) ∧
  stored_usageCount (storage processed) = stored_usageCount (storage w) ∧
  clientProfile (engine processed) = clientProfile (engine w) ∧
  stored_clientProfile (storage processed) = stored_clientProfile (storage w) ∧
  timers processed = timers w ∧
  match performReview toISOString (engine w) now with
  | Normal review =>
      reviewResults (engine processed) = Some review ∧
      stored_reviewResults (storage processed) = Some review
  | Throw _ => processed = w
  end.
Proof.
  cbv zeta. unfold processDocuments, finishProcessing.
  split.
  { destruct (usageCount (engine w) >=? maxUsage (engine w))%Z eqn:Hge; cbn [snd].
    - apply Z.geb_le in Hge. by split.
    - rewrite Z.geb_leb in Hge. apply Z.leb_gt in Hge. split; [done | lia]. }
  split; [by destruct (_ >=? _)%Z|]. split; [by destruct (_ >=? _)%Z|].
  by destruct (performReview toISOString (engine w) now).
Qed.

End Review.

End ReviewFacts.

(** ** The validators ([background.js]) *)

Module DocumentFacts.
Import JS Background.

(** *** Numbers that are missing *)

(** [is_nan] recognises exactly [NaN]. *)
Lemma is_nan_spec (x : float) : is_nan x = true → Prim2SF x = S754_nan.
Proof.
  unfold is_nan. rewrite negb_true_iff, FloatAxioms.eqb_spec. unfold SFeqb.
  destruct (Prim2SF x) as [s|[]| |[] m e]; cbn; try discriminate; try reflexivity;
    rewrite Z.compare_refl;
    change (Pos.compare_cont Eq m m) with (Pos.compare m m);
    rewrite Pos.compare_refl; discriminate.
Qed.

Lemma gt_nan_left (x threshold : float) :
  Prim2SF x = S754_nan → gt x threshold = false.
Proof.
  intros H. unfold gt. rewrite ltb_spec, H.
  by destruct (Prim2SF threshold) as [| | |[] ? ?].
Qed.

Lemma lt_nan_left (x threshold : float) :
  Prim2SF x = S754_nan → lt x threshold = false.
Proof. intros H. unfold lt. by rewrite ltb_spec, H. Qed.

Lemma abs_nan (x : float) : Prim2SF x = S754_nan → Prim2SF (abs x) = S754_nan.
Proof. intros H. by rewrite abs_spec, H. Qed.

Lemma sub_nan (x y : float) :
  Prim2SF x = S754_nan ∨ Prim2SF y = S754_nan → Prim2SF (x - y) = S754_nan.
Proof.
  rewrite sub_spec. intros [H|H]; rewrite H; [done|].
  by destruct (Prim2SF x).
Qed.

Lemma add_nan (x y : float) :
  Prim2SF x = S754_nan ∨ Prim2SF y = S754_nan → Prim2SF (x + y) = S754_nan.
Proof.
  rewrite add_spec. intros [H|H]; rewrite H; [done|].
  by destruct (Prim2SF x).
Qed.

Lemma div_nan (x y : float) :
  Prim2SF x = S754_nan ∨ Prim2SF y = S754_nan → Prim2SF (x / y) = S754_nan.
Proof.
  rewrite div_spec. intros [H|H]; rewrite H; [done|].
  by destruct (Prim2SF x).
Qed.

Lemma mul_nan (x y : float) :
  Prim2SF x = S754_nan → Prim2SF (x * y) = S754_nan.
Proof. rewrite mul_spec. by intros ->. Qed.

(** *** What pushing a message keeps *)

Lemma when_fields (c : bool) (f : Results → Results) (r : Results) :
  (∀ r', valid (f r') = valid r' ∧ errors (f r') = errors r' ∧ info (f r') = info r') →
  valid (when c f r) = valid r ∧ errors (when c f r) = errors r ∧
  info (when c f r) = info r.
Proof. intros Hf. destruct c; [apply Hf | done]. Qed.

Section Validators.

Variable finiteToString : float → string.

Lemma disallowable_fold_fields (l : list Expense) (r : Results) :
  let r' := foldl (λ r expense,
                     when (isDisallowable expense)
                       (pushWarning (disallowableWarning finiteToString expense)) r)
                  r l in
  valid r' = valid r ∧ errors r' = errors r ∧ info r' = info r.
Proof.
  cbv zeta. revert r. induction l as [|e l IH]; intros r; [done|].
  cbn [foldl]. destruct (IH (when (isDisallowable e)
                               (pushWarning (disallowableWarning finiteToString e)) r))
    as (-> & -> & ->).
  by destruct (isDisallowable e).
Qed.

(** X15.  [validateProfitLoss] never marks the statement invalid: its
    [valid] field is true also when it records calculation errors.  The
    errors are the gross-profit mismatch and the net-profit mismatch, in
    this order, each when its recomputed figure is more than 0.01 away
    from the stated one, and it gives no information message. *)
Theorem validateProfitLoss_always_valid (data : ProfitLoss) :
  valid (validateProfitLoss finiteToString data) = true ∧
  errors (validateProfitLoss finiteToString data)
  = (if gt (abs (revenue data - directCosts data - grossProfit data)) 0.01
     then ["Gross Profit calculation mismatch"] else [])
    ++ (if gt (abs (grossProfit data - operatingExpenses data - otherExpenses data
                    + otherIncome data - netProfit data)) 0.01
        then ["Net Profit calculation mismatch"] else []) ∧
  info (validateProfitLoss finiteToString data) = [].
Proof.
  unfold validateProfitLoss. cbv zeta.
  match goal with
  | |- context [when ?c ?f (foldl ?g ?r ?l)] =>
      destruct (when_fields c f (foldl g r l)) as (-> & -> & ->); [done|];
      destruct (disallowable_fold_fields l r) as (-> & -> & ->)
  end.
  by destruct (gt (abs (revenue data - directCosts data - grossProfit data)) 0.01),
    (gt (abs (grossProfit data - operatingExpenses data - otherExpenses data
              + otherIncome data - netProfit data)) 0.01).
Qed.

(** X16.  [validateBalanceSheet] marks the sheet invalid exactly when it
    records an error, and the only error is the one of the balance check:
    assets more than 0.01 away from liabilities plus equity.  It gives at
    most two warnings and at most one information message, and none of
    the latter without previous-year figures. *)
Theorem validateBalanceSheet_valid (data : BalanceSheet) :
  let unbalanced :=
    gt (abs (totalAssets data - (totalLiabilities data + equity data))) 0.01 in
  valid (validateBalanceSheet finiteToString data) = negb unbalanced ∧
  errors (validateBalanceSheet finiteToString data)
  = (if unbalanced
     then ["Balance Sheet does not balance: Assets ≠ Liabilities + Equity"] else []) ∧
  (valid (validateBalanceSheet finiteToString data) = true ↔
   errors (validateBalanceSheet finiteToString data) = []) ∧
  length (warnings (validateBalanceSheet finiteToString data)) ≤ 2 ∧
  length (info (validateBalanceSheet finiteToString data)) ≤ 1 ∧
  (previousYear data = None → info (validateBalanceSheet finiteToString data) = []).
Proof.
  cbv zeta. unfold validateBalanceSheet. cbv zeta.
  destruct (gt (abs (totalAssets data - (totalLiabilities data + equity data))) 0.01),
    (negativeAssets data) as [[|a l]|],
    (lt (currentAssets data / currentLiabilities data) 1),
    (previousYear data) as [previous|];
    try destruct (gt (abs _) 20);
    cbn; repeat split; try done; try lia.
Qed.

(** The year-over-year change that [validateBalanceSheet] computes. *)
Definition assetChange (data : BalanceSheet) (previous : PreviousYear) : float :=
  (totalAssets data - previous_totalAssets previous)
  / previous_totalAssets previous * 100.

Lemma validateBalanceSheet_fields (data : BalanceSheet) :
  valid (validateBalanceSheet finiteToString data)
  = negb (gt (abs (totalAssets data - (totalLiabilities data + equity data))) 0.01) ∧
  errors (validateBalanceSheet finiteToString data)
  = (if gt (abs (totalAssets data - (totalLiabilities data + equity data))) 0.01
     then ["Balance Sheet does not balance: Assets ≠ Liabilities + Equity"] else []) ∧
  info (validateBalanceSheet finiteToString data)
  = match previousYear data with
    | Some previous =>
        if gt (abs (assetChange data previous)) 20
        then ["Significant change in total assets: " +:+
              toFixed finiteToString 1 (assetChange data previous) +:+ "% YoY"]
        else []
    | None => []
    end.
Proof.
  unfold validateBalanceSheet, assetChange. cbv zeta.
  destruct (gt (abs (totalAssets data - (totalLiabilities data + equity data))) 0.01),
    (negativeAssets data) as [[|a l]|],
    (lt (currentAssets data / currentLiabilities data) 1),
    (previousYear data) as [previous|];
    try destruct (gt (abs _) 20); done.
Qed.

(** X17.  A number that is missing (it reads as [NaN]) passes every
    check it enters without a finding: with a missing total, liability
    total or equity the sheet is reported valid and without error; with
    a missing current amount there is no liquidity warning; with a
    missing total of this or of the previous year there is no
    information message. *)
Theorem missing_numbers_pass (data : BalanceSheet) :
  (is_nan (totalAssets data) = true ∨ is_nan (totalLiabilities data) = true ∨
   is_nan (equity data) = true →
   valid (validateBalanceSheet finiteToString data) = true ∧
   errors (validateBalanceSheet finiteToString data) = []) ∧
  (is_nan (currentAssets data) = true ∨ is_nan (currentLiabilities data) = true →
   warnings (validateBalanceSheet finiteToString data)
   = ValidationFacts.negativeAssetsWarnings data) ∧
  (∀ previous,
     previousYear data = Some previous →
     is_nan (totalAssets data) = true ∨ is_nan (previous_totalAssets previous) = true →
     info (validateBalanceSheet finiteToString data) = []).
Proof.
  destruct (validateBalanceSheet_fields data) as (Hvalid & Herrors & Hinfo).
  split; [|split].
  - intros Hmissing. rewrite Hvalid, Herrors.
    rewrite gt_nan_left; [done|]. apply abs_nan, sub_nan.
    destruct Hmissing as [H|[H|H]]; apply is_nan_spec in H.
    + by left.
    + right. apply add_nan. by left.
    + right. apply add_nan. by right.
  - intros Hmissing.
    rewrite (ValidationFacts.validateBalanceSheet_warnings finiteToString data).
    rewrite lt_nan_left; [by rewrite app_nil_r|]. apply div_nan.
    destruct Hmissing as [H|H]; apply is_nan_spec in H; [by left | by right].
  - intros previous Hprevious Hmissing. rewrite Hinfo, Hprevious.
    rewrite gt_nan_left; [done|]. apply abs_nan, mul_nan. unfold assetChange.
    destruct Hmissing as [H|H]; apply is_nan_spec in H.
    + apply div_nan. left. apply sub_nan. by left.
    + apply div_nan. by right.
Qed.


End Validators.

Lemma validateBalanceSheet_valid_witness :
  info (validateBalanceSheet ValidationFacts.sampleFiniteToString
          ValidationFacts.noCurrentLiabilities) = [].
Proof.
  destruct (validateBalanceSheet_valid ValidationFacts.sampleFiniteToString
              ValidationFacts.noCurrentLiabilities) as (_ & _ & _ & _ & _ & Hinfo).
  by apply Hinfo.
Defined.


Definition equityMissing : BalanceSheet :=
  {| totalAssets := 500000;
     totalLiabilities := 300000;
     equity := nan;
     negativeAssets := None;
     currentAssets := 200000;
     currentLiabilities := 100000;
     previousYear := None |}.

Lemma missing_numbers_pass_witness :
  valid (validateBalanceSheet ValidationFacts.sampleFiniteToString equityMissing) = true ∧
  errors (validateBalanceSheet ValidationFacts.sampleFiniteToString equityMissing) = [].
Proof.
  destruct (missing_numbers_pass ValidationFacts.sampleFiniteToString equityMissing)
    as (Hbalance & _).
  apply Hbalance. right. right. reflexivity.
Defined.


(** *** Trial balance, dispatch and messages *)

(** A number minus itself is zero, or [NaN] when it is not finite. *)
Lemma sub_self (x : float) :
  Prim2SF (x - x) = S754_zero false ∨ Prim2SF (x - x) = S754_nan.
Proof.
  rewrite sub_spec. destruct (Prim2SF x) as [[]|[]| |s m e]; cbn; auto.
  left. unfold SF64sub, SFsub. rewrite Z.sub_diag. reflexivity.
Qed.

Section Dispatch.

Variable finiteToString : float → string.

Lemma validateTrialBalance_fields (data : TrialBalance) :
  valid (validateTrialBalance finiteToString data)
  = negb (gt (abs (totalDebit data - totalCredit data)) 0.01) ∧
  errors (validateTrialBalance finiteToString data)
  = (if gt (abs (totalDebit data - totalCredit data)) 0.01
     then ["Trial Balance does not tally: Debit (" +:+
           numberToString finiteToString (totalDebit data) +:+
           ") ≠ Credit (" +:+
           numberToString finiteToString (totalCredit data) +:+ ")"]
     else []) ∧
  warnings (validateTrialBalance finiteToString data)
  = match length (List.filter hasBothSides (accounts data)) with
    | O => []
    | S n => [lengthToString (S n) +:+ " accounts have both debit and credit balances"]
    end ∧
  info (validateTrialBalance finiteToString data) = [].
Proof.
  unfold validateTrialBalance. cbv zeta.
  by destruct (gt (abs (totalDebit data - totalCredit data)) 0.01),
    (length (List.filter hasBothSides (accounts data))).
Qed.

(** X19.  A trial balance whose two totals are the same number is never
    reported as not tallying, whatever the number is (also when it is
    missing or infinite), and the balance is marked invalid exactly when
    the tally error is recorded.  There is one warning, with their
    number, when some account has a positive debit and a positive
    credit, and none otherwise. *)
Theorem validateTrialBalance_tally (data : TrialBalance) :
  (totalDebit data = totalCredit data →
   valid (validateTrialBalance finiteToString data) = true ∧
   errors (validateTrialBalance finiteToString data) = []) ∧
  (valid (validateTrialBalance finiteToString data) = true ↔
   errors (validateTrialBalance finiteToString data) = []) ∧
  (∀ acc, hasBothSides acc = true ↔ gt (debit acc) 0 = true ∧ gt (credit acc) 0 = true) ∧
  (Forall (λ acc, hasBothSides acc = false) (accounts data) →
   warnings (validateTrialBalance finiteToString data) = []) ∧
  (Exists (λ acc, hasBothSides acc = true) (accounts data) →
   warnings (validateTrialBalance finiteToString data)
   = [lengthToString (length (List.filter hasBothSides (accounts data))) +:+
      " accounts have both debit and credit balances"]).
Proof.
  destruct (validateTrialBalance_fields data) as (Hvalid & Herrors & Hwarnings & _).
  split; [|split; [|split; [|split]]].
  - intros Hsame. rewrite Hvalid, Herrors, Hsame.
    assert (gt (abs (totalCredit data - totalCredit data)) 0.01 = false) as ->; [|done].
    unfold gt. rewrite ltb_spec, abs_spec.
    by destruct (sub_self (totalCredit data)) as [-> | ->].
  - rewrite Hvalid, Herrors. by destruct (gt _ _).
  - intros acc. unfold hasBothSides. apply andb_true_iff.
  - intros Hnone. rewrite Hwarnings.
    assert (∀ l, Forall (λ acc, hasBothSides acc = false) l →
                 List.filter hasBothSides l = []) as Hfilter.
    { intros l Hl. induction Hl as [|acc l Hacc _ IH]; [done|].
      cbn [List.filter]. by rewrite Hacc. }
    by rewrite Hfilter.
  - intros Hsome. rewrite Hwarnings.
    destruct (length (List.filter hasBothSides (accounts data))) eqn:Hlength; [|done].
    apply length_zero_iff_nil in Hlength.
    apply Exists_exists in Hsome as (acc & Hin & Hacc).
    apply list_elem_of_In in Hin.
    assert (In acc (List.filter hasBothSides (accounts data))) as Hfiltered
      by (by apply filter_In).
    rewrite Hlength in Hfiltered. destruct Hfiltered.
Qed.

Lemma validations_keys (key : string) (v : validator) :
  validations !! key = Some v →
  (key = "balanceSheet" ∧ v = BalanceSheetValidator) ∨
  (key = "profitLoss" ∧ v = ProfitLossValidator) ∨
  (key = "trialBalance" ∧ v = TrialBalanceValidator).
Proof.
  unfold validations. intros H.
  repeat (apply lookup_insert_Some in H as [[<- <-]|[_ H]]; [tauto|]).
  apply lookup_singleton_Some in H as [<- <-]. tauto.
Qed.

Lemma inherited_not_validator (key : string) :
  key ∈ objectPrototypeProperties → validations !! key = None.
Proof.
  unfold objectPrototypeProperties. intros H.
  repeat (apply elem_of_cons in H as [->|H]; [by vm_compute|]).
  by apply elem_of_nil in H.
Qed.

Lemma validateDocument_inherited (document : DocumentData) :
  type document ∈ objectPrototypeProperties →
  validateDocument finiteToString document
  = callPrototypeMember (type document) document.
Proof.
  intros Hproto. unfold validateDocument, getProperty.
  rewrite (inherited_not_validator _ Hproto).
  by rewrite bool_decide_eq_true_2.
Qed.

(** Only the three validators give validation results. *)
Lemma validateDocument_validated (document : DocumentData) (results : Results) :
  validateDocument finiteToString document = Fulfilled (Validated results) →
  type document = "balanceSheet" ∨ type document = "profitLoss" ∨
  type document = "trialBalance".
Proof.
  unfold validateDocument, getProperty.
  destruct (validations !! type document) as [v|] eqn:Hlookup.
  - apply validations_keys in Hlookup. tauto.
  - case_bool_decide; [|discriminate].
    unfold callPrototypeMember.
    repeat match goal with
           | |- context [if ?b then _ else _] => destruct b
           end; discriminate.
Qed.

(** X20.  The promise of [validateDocument] is rejected with the error
    "Unknown document type" for every type that is neither
    "balanceSheet", "profitLoss" nor "trialBalance" nor a key inherited
    from [Object.prototype], and for no other document.  A balance sheet
    is always validated; a profit-and-loss statement or a trial balance
    is validated when its array of expenses or accounts is there, and
    the promise is rejected with the [TypeError] of reading [forEach] or
    [filter] of [undefined] when it is not.  For an inherited key the
    member of [Object.prototype] is called in place of a validator:
    [constructor] gives the document back, [toString] the text
    "[object Undefined]", [__proto__] is no function, and every other
    member throws the [TypeError] of an undefined [this].  Validation
    results come from the three validators only. *)
Theorem validateDocument_dispatch (document : DocumentData) :
  (validateDocument finiteToString document
   = Rejected (ErrorObject "Unknown document type") ↔
   type document ≠ "balanceSheet" ∧ type document ≠ "profitLoss" ∧
   type document ≠ "trialBalance" ∧ type document ∉ objectPrototypeProperties) ∧
  (type document = "balanceSheet" →
   validateDocument finiteToString document
   = Fulfilled (Validated (validateBalanceSheet finiteToString (balanceSheet document)))) ∧
  (type document = "profitLoss" →
   validateDocument finiteToString document
   = match profitLoss document with
     | Some data => Fulfilled (Validated (validateProfitLoss finiteToString data))
     | None => Rejected (TypeErrorObject (ReadOfUndefined "data.expenses" "forEach"))
     end) ∧
  (type document = "trialBalance" →
   validateDocument finiteToString document
   = match trialBalance document with
     | Some data => Fulfilled (Validated (validateTrialBalance finiteToString data))
     | None => Rejected (TypeErrorObject (ReadOfUndefined "data.accounts" "filter"))
     end) ∧
  (type document = "constructor" →
   validateDocument finiteToString document = Fulfilled (SameDocument document)) ∧
  (type document = "toString" →
   validateDocument finiteToString document = Fulfilled (Tag "[object Undefined]")) ∧
  (type document = "__proto__" →
   validateDocument finiteToString document
   = Rejected (TypeErrorObject ValidatorNotAFunction)) ∧
  (type document ∈ objectPrototypeProperties →
   type document ≠ "constructor" → type document ≠ "toString" →
   type document ≠ "__proto__" →
   validateDocument finiteToString document
   = Rejected (TypeErrorObject (ThisUndefined (type document)))) ∧
  (∀ results,
     validateDocument finiteToString document = Fulfilled (Validated results) →
     type document = "balanceSheet" ∨ type document = "profitLoss" ∨
     type document = "trialBalance").
Proof.
  split; [|split; [|split; [|split; [|split; [|split; [|split; [|split]]]]]]].
  - unfold validateDocument, getProperty.
    destruct (validations !! type document) as [v|] eqn:Hlookup.
    + apply validations_keys in Hlookup as [[Hkey ->]|[[Hkey ->]|[Hkey ->]]];
        rewrite Hkey; cbn [applyValidator]; split; try (intros (? & ? & ? & ?); done).
      * discriminate.
      * by destruct (profitLoss document).
      * by destruct (trialBalance document).
    + case_bool_decide as Hproto.
      * split; [|intros (_ & _ & _ & Hno); done].
        unfold callPrototypeMember.
        repeat match goal with
               | |- context [if ?b then _ else _] => destruct b
               end; discriminate.
      * split; [|done]. intros _.
        repeat split; [intros Hkey; by rewrite Hkey in Hlookup ..| done].
  - unfold validateDocument. by intros ->.
  - unfold validateDocument. by intros ->.
  - unfold validateDocument. by intros ->.
  - unfold validateDocument. by intros ->.
  - unfold validateDocument. by intros ->.
  - unfold validateDocument. by intros ->.
  - intros Hproto Hconstructor HtoString Hprototype.
    rewrite (validateDocument_inherited _ Hproto). unfold callPrototypeMember.
    apply String.eqb_neq in Hconstructor, HtoString, Hprototype.
    by rewrite Hconstructor, HtoString, Hprototype.
  - apply validateDocument_validated.
Qed.

Definition noDocument (kind : string) : DocumentData :=
  {| type := kind;
     balanceSheet := ValidationFacts.noCurrentLiabilities;
     profitLoss := None;
     trialBalance := None |}.

Variable typeErrorMessage : typeError → string.

(** X21.  [messageHandler] answers "Unknown action" to every message
    whose action is none of "fetchStatutoryData", "validateDocument" and
    "checkUsageLimit", and to no other message when the engine words no
    [TypeError] like that.  A usage-limit query always succeeds; a
    statutory-data request fails exactly for a source that is not
    approved; a validation request fails exactly when the promise of
    [validateDocument] is rejected, with the message of the error: the
    text of the script for an unknown type, the text of the engine for a
    [TypeError], as for every inherited key but [constructor] and
    [toString].  A response that carries validation results answers a
    validation request for one of the three document types. *)
Theorem messageHandler_responses (message : Message) (storage : Popup.Storage) :
  let response := messageHandler finiteToString typeErrorMessage message storage in
  (action message ≠ "fetchStatutoryData" → action message ≠ "validateDocument" →
   action message ≠ "checkUsageLimit" →
   response = Failure "Unknown action") ∧
  ((∀ e, typeErrorMessage e ≠ "Unknown action") →
   response = Failure "Unknown action" →
   action message ≠ "fetchStatutoryData" ∧ action message ≠ "validateDocument" ∧
   action message ≠ "checkUsageLimit") ∧
  (action message = "checkUsageLimit" →
   response = Success (UsagePayload (checkUsageLimit storage))) ∧
  (action message = "fetchStatutoryData" →
   response
   = if isApproved (source message)
     then Success (StatutoryPayload
                     (getStatutoryDataSimulated (source message) (query message)))
     else Failure "Unauthorized data source") ∧
  (action message = "validateDocument" →
   response
   = match validateDocument finiteToString (documentData message) with
     | Fulfilled result => Success (ValidationPayload result)
     | Rejected error => Failure (errorMessage typeErrorMessage error)
     end) ∧
  (action message = "validateDocument" →
   type (documentData message) ∈ objectPrototypeProperties →
   type (documentData message) ≠ "constructor" →
   type (documentData message) ≠ "toString" →
   ∃ e, response = Failure (typeErrorMessage e)) ∧
  (∀ results,
     response = Success (ValidationPayload (Validated results)) →
     action message = "validateDocument" ∧
     (type (documentData message) = "balanceSheet" ∨
      type (documentData message) = "profitLoss" ∨
      type (documentData message) = "trialBalance")).
Proof.
  cbv zeta. unfold messageHandler.
  split; [|split; [|split; [|split; [|split; [|split]]]]].
  - intros Hfetch Hvalidate Husage.
    apply String.eqb_neq in Hfetch, Hvalidate, Husage.
    by rewrite Hfetch, Hvalidate, Husage.
  - intros Hhost.
    destruct (String.eqb_spec (action message) "fetchStatutoryData") as [Hfetch|Hfetch].
    { unfold fetchStatutoryData. by destruct (isApproved _). }
    destruct (String.eqb_spec (action message) "validateDocument") as [Hvalidate|Hvalidate].
    { destruct (validateDocument _ _) as [result|[text|e]] eqn:Hresult;
        cbn [errorMessage]; [discriminate| |].
      - intros Htext. injection Htext as ->. exfalso. revert Hresult.
        unfold validateDocument, getProperty.
        destruct (validations !! _) as [[]|]; cbn [applyValidator]; try discriminate.
        + by destruct (profitLoss _).
        + by destruct (trialBalance _).
        + case_bool_decide; [|discriminate]. unfold callPrototypeMember.
          repeat match goal with
                 | |- context [if ?b then _ else _] => destruct b
                 end; discriminate.
      - intros Htext. injection Htext as Htext. by destruct (Hhost e). }
    destruct (String.eqb_spec (action message) "checkUsageLimit") as [Husage|Husage].
    { discriminate. }
    done.
  - by intros ->.
  - intros ->. cbn. unfold fetchStatutoryData. by destruct (isApproved _).
  - by intros ->.
  - intros -> Hproto Hconstructor HtoString. cbn [String.eqb Ascii.eqb Bool.eqb].
    rewrite (validateDocument_inherited _ Hproto). unfold callPrototypeMember.
    apply String.eqb_neq in Hconstructor, HtoString.
    rewrite Hconstructor, HtoString.
    destruct (String.eqb _ "__proto__"); cbn [errorMessage]; by eexists.
  - intros results.
    destruct (String.eqb_spec (action message) "fetchStatutoryData") as [Hfetch|Hfetch].
    { unfold fetchStatutoryData. by destruct (isApproved _). }
    destruct (String.eqb_spec (action message) "validateDocument") as [Hvalidate|Hvalidate].
    { destruct (validateDocument _ _) as [result|error] eqn:Hresult; [|discriminate].
      intros Hresponse. injection Hresponse as ->.
      split; [done|]. by apply (validateDocument_validated _ results). }
    destruct (String.eqb_spec (action message) "checkUsageLimit"); discriminate.
Qed.

End Dispatch.

Example trial_balance_mismatch :
  validateTrialBalance ValidationFacts.sampleFiniteToString
    {| totalDebit := 500100; totalCredit := 500000; accounts := [] |}
  = {| valid := false;
       errors := ["Trial Balance does not tally: Debit (#) ≠ Credit (#)"];
       warnings := [];
       info := [] |}.
Proof. reflexivity. Qed.

Lemma validateTrialBalance_tally_witness :
  valid (validateTrialBalance ValidationFacts.sampleFiniteToString
           {| totalDebit := 500000;
              totalCredit := 500000;
              accounts := [ {| debit := 100; credit := 0 |} ] |})
  = true.
Proof.
  destruct (validateTrialBalance_tally ValidationFacts.sampleFiniteToString
              {| totalDebit := 500000;
                 totalCredit := 500000;
                 accounts := [ {| debit := 100; credit := 0 |} ] |})
    as (Hsame & _).
  by apply Hsame.
Defined.

(** The texts that V8 gives these errors. *)
Definition sampleTypeErrorMessage (e : typeError) : string :=
  match e with
  | ValidatorNotAFunction => "validator is not a function"
  | ThisUndefined member =>
      if String.eqb member "toLocaleString"
      then "Object.prototype.toLocaleString called on null or undefined"
      else "Cannot convert undefined or null to object"
  | ReadOfUndefined _ property =>
      "Cannot read properties of undefined (reading '" +:+ property +:+ "')"
  end.

Definition validationRequest (kind : string) : Message :=
  {| action := "validateDocument"; source := ""; query := "";
     documentData := noDocument kind |}.

Definition sampleMessageHandler : Message → Popup.Storage → Response :=
  messageHandler ValidationFacts.sampleFiniteToString sampleTypeErrorMessage.

Example inherited_member_called :
  sampleMessageHandler (validationRequest "hasOwnProperty") EngineFacts.installed
  = Failure "Cannot convert undefined or null to object" ∧
  sampleMessageHandler (validationRequest "valueOf") EngineFacts.installed
  = Failure "Cannot convert undefined or null to object" ∧
  sampleMessageHandler (validationRequest "__proto__") EngineFacts.installed
  = Failure "validator is not a function" ∧
  sampleMessageHandler (validationRequest "toString") EngineFacts.installed
  = Success (ValidationPayload (Tag "[object Undefined]")) ∧
  sampleMessageHandler (validationRequest "constructor") EngineFacts.installed
  = Success (ValidationPayload (SameDocument (noDocument "constructor"))).
Proof. repeat split. Qed.

Example missing_arrays_rejected :
  sampleMessageHandler (validationRequest "profitLoss") EngineFacts.installed
  = Failure "Cannot read properties of undefined (reading 'forEach')" ∧
  sampleMessageHandler (validationRequest "trialBalance") EngineFacts.installed
  = Failure "Cannot read properties of undefined (reading 'filter')" ∧
  sampleMessageHandler (validationRequest "ledger") EngineFacts.installed
  = Failure "Unknown document type".
Proof. repeat split. Qed.

Lemma validateDocument_dispatch_witness :
  validateDocument ValidationFacts.sampleFiniteToString (noDocument "profitLoss")
  = Rejected (TypeErrorObject (ReadOfUndefined "data.expenses" "forEach")) ∧
  validateDocument ValidationFacts.sampleFiniteToString (noDocument "valueOf")
  = Rejected (TypeErrorObject (ThisUndefined "valueOf")).
Proof.
  split.
  - destruct (validateDocument_dispatch ValidationFacts.sampleFiniteToString
                (noDocument "profitLoss")) as (_ & _ & Hpl & _).
    by apply Hpl.
  - destruct (validateDocument_dispatch ValidationFacts.sampleFiniteToString
                (noDocument "valueOf")) as (_ & _ & _ & _ & _ & _ & _ & Hmember & _).
    apply Hmember; [by apply (bool_decide_unpack _) | discriminate ..].
Defined.

Lemma messageHandler_responses_witness :
  (∀ e, sampleTypeErrorMessage e ≠ "Unknown action") ∧
  sampleMessageHandler (validationRequest "hasOwnProperty") EngineFacts.installed
  = Failure "Cannot convert undefined or null to object" ∧
  sampleMessageHandler
    {| action := "ping"; source := ""; query := "";
       documentData := noDocument "balanceSheet" |}
    EngineFacts.installed
  = Failure "Unknown action".
Proof.
  split; [|split].
  - intros [|member|object property]; cbn.
    + discriminate.
    + destruct (String.eqb member "toLocaleString"); discriminate.
    + discriminate.
  - destruct (messageHandler_responses ValidationFacts.sampleFiniteToString
                sampleTypeErrorMessage
                (validationRequest "hasOwnProperty") EngineFacts.installed)
      as (_ & _ & _ & _ & Hvalidate & _).
    by apply Hvalidate.
  - destruct (messageHandler_responses ValidationFacts.sampleFiniteToString
                sampleTypeErrorMessage
                {| action := "ping"; source := ""; query := "";
                   documentData := noDocument "balanceSheet" |}
                EngineFacts.installed)
      as (Hunknown & _).
    apply Hunknown; discriminate.
Defined.

End DocumentFacts.

(** ** Storage housekeeping and reference data ([background.js]) *)

Module HousekeepingFacts.
Import JS Background.

Section Cleanup.

Variable Value : Type.
Variable timestampOf : Value → float.

Lemma foldr_delete_lookup (stale : string → Value → bool)
    (l : list (string * Value)) (m : gmap string Value) (k : string) :
  foldr (λ entry area, if stale entry.1 entry.2 then delete entry.1 area else area)
        m l !! k
  = if existsb (λ entry, bool_decide (entry.1 = k) && stale entry.1 entry.2) l
    then None else m !! k.
Proof.
  induction l as [|[k' v] l IH]; [done|].
  cbn [foldr existsb fst snd].
  destruct (stale k' v); [|by rewrite andb_false_r].
  rewrite andb_true_r. case_bool_decide as Hk; cbn [orb].
  - subst k'. apply lookup_delete_eq.
  - by rewrite lookup_delete_ne.
Qed.

Lemma performCleanup_lookup (now : float) (storage : gmap string Value) (k : string) :
  performCleanup Value timestampOf now storage !! k
  = match storage !! k with
    | Some v =>
        if isStale Value timestampOf (now - 2592000000) k v then None else Some v
    | None => None
    end.
Proof.
  unfold performCleanup. cbv zeta.
  change (30 * 24 * 60 * 60 * 1000) with 2592000000.
  rewrite foldr_delete_lookup.
  destruct (existsb _ (map_to_list storage)) eqn:Hexists.
  - apply existsb_exists in Hexists as ([k' v] & Hin & Hstale).
    apply andb_true_iff in Hstale as [Hk Hstale].
    apply bool_decide_eq_true in Hk. cbn [fst snd] in *. subst k'.
    apply list_elem_of_In, elem_of_map_to_list in Hin.
    by rewrite Hin, Hstale.
  - destruct (storage !! k) as [v|] eqn:Hlookup; [|done].
    destruct (isStale Value timestampOf (now - 2592000000) k v) eqn:Hstale; [|done].
    assert (existsb (λ entry, bool_decide (entry.1 = k)
                              && isStale Value timestampOf (now - 2592000000)
                                   entry.1 entry.2)
                    (map_to_list storage) = true) as Htrue; [|congruence].
    apply existsb_exists. exists (k, v). split.
    + by apply list_elem_of_In, elem_of_map_to_list.
    + cbn [fst snd]. by rewrite bool_decide_eq_true_2, Hstale.
Qed.

(** X22.  The daily cleanup removes exactly the entries whose key starts
    with "review_" and whose timestamp, read as a number, is more than
    thirty days (2,592,000,000 ms) before now; every other entry is kept
    with its value, so the result is a part of the storage area and a
    second cleanup at the same time removes nothing more.  In particular
    none of the keys that the two scripts write ("clientProfile",
    "usageCount", "reviewResults", "installDate", "version") is ever
    removed. *)
Theorem performCleanup_removes (now : float) (storage : gmap string Value) :
  (∀ key,
     performCleanup Value timestampOf now storage !! key
     = match storage !! key with
       | Some value =>
           if String.prefix "review_" key
              && lt (timestampOf value) (now - 2592000000)
           then None else Some value
       | None => None
       end) ∧
  performCleanup Value timestampOf now storage ⊆ storage ∧
  performCleanup Value timestampOf now (performCleanup Value timestampOf now storage)
  = performCleanup Value timestampOf now storage ∧
  (∀ key,
     key ∈ ["clientProfile"; "usageCount"; "reviewResults"; "installDate"; "version"] →
     performCleanup Value timestampOf now storage !! key = storage !! key).
Proof.
  split; [apply performCleanup_lookup|]. split; [|split].
  - apply map_subseteq_spec. intros key value. rewrite performCleanup_lookup.
    destruct (storage !! key) as [v|]; [|done]. by destruct (isStale _ _ _ _ _).
  - apply map_eq. intros key. rewrite !performCleanup_lookup.
    destruct (storage !! key) as [v|]; [|done].
    destruct (isStale _ _ _ _ _) eqn:Hstale; [done | by rewrite Hstale].
  - intros key Hkey. rewrite performCleanup_lookup.
    destruct (storage !! key) as [v|]; [|done].
    unfold isStale.
    repeat (apply elem_of_cons in Hkey as [->|Hkey]; [done|]).
    by apply elem_of_nil in Hkey.
Qed.

End Cleanup.

(** Sample values: a number as timestamp, a date in ISO form, or none. *)
Inductive stamp :=
| NumberStamp (t : float)
| TextStamp (s : string)
| NoStamp.

Definition sampleTimestampOf (v : stamp) : float :=
  match v with
  | NumberStamp t => t
  | TextStamp _ => nan
  | NoStamp => nan
  end.

Definition sampleArea : gmap string stamp :=
  {[ "review_old" := NumberStamp 1000;
     "review_new" := NumberStamp 1700000000000;
     "review_text" := TextStamp "2025-04-01T00:00:00.000Z";
     "reviewResults" := TextStamp "2025-04-01T00:00:00.000Z";
     "usageCount" := NoStamp ]}.

Lemma performCleanup_removes_witness :
  performCleanup stamp sampleTimestampOf 1700000000000 sampleArea !! "reviewResults"
  = Some (TextStamp "2025-04-01T00:00:00.000Z").
Proof.
  destruct (performCleanup_removes stamp sampleTimestampOf 1700000000000 sampleArea)
    as (_ & _ & _ & Hkept).
  rewrite Hkept; [by vm_compute|].
  apply (bool_decide_unpack _). by vm_compute.
Defined.

Example cleanup_sample :
  performCleanup stamp sampleTimestampOf 1700000000000 sampleArea
  = delete "review_old" sampleArea.
Proof. by vm_compute. Qed.

(** *** Usage limit and installation *)

(** X23.  [checkUsageLimit] reports the stored counter (0 when there is
    none), a maximum of 99 and the difference as what remains, and says
    "exceeded" exactly when nothing remains.  It agrees with the popup:
    the counter it reports is the one a popup opened on the same storage
    area starts with, and it says "exceeded" exactly when that popup
    refuses a report request. *)
Theorem checkUsageLimit_agrees (storage : Popup.Storage) :
  let limit := checkUsageLimit storage in
  let popup := Popup.openPopup storage in
  max limit = 99%Z ∧
  (current limit + remaining limit = 99)%Z ∧
  (exceeded limit = true ↔ (remaining limit ≤ 0)%Z) ∧
  current limit = Popup.usageCount (Popup.engine popup) ∧
  (exceeded limit = true ↔
   Popup.generateReport popup
   = Popup.showNotification "Usage limit reached (99/99)" "error" popup) ∧
  (exceeded limit = false ↔
   Popup.timers (Popup.generateReport popup) = [Popup.ReportTimer]).
Proof.
  cbv zeta. unfold checkUsageLimit, Popup.generateReport.
  cbn [max current remaining exceeded Popup.openPopup Popup.engine Popup.loadData
       Popup.usageCount Popup.maxUsage Popup.constructor].
  split; [done|]. split; [lia|]. split.
  { rewrite Z.geb_le. lia. }
  split; [done|].
  destruct (Popup.orZero (Popup.stored_usageCount storage) >=? 99)%Z; split; done.
Qed.

(** X24.  An installation sets the stored counter to 0, so that the
    whole allowance of 99 is reported afterwards, and keeps a stored
    profile and stored review results; any other reason, an update for
    instance, leaves the storage area as it is. *)
Theorem handleInstall_counter (reason installDate version : string)
    (storage : Popup.Storage) :
  (reason = "install" →
   checkUsageLimit (handleInstall reason installDate version storage)
   = {| current := 0; max := 99; remaining := 99; exceeded := false |} ∧
   Popup.stored_clientProfile (handleInstall reason installDate version storage)
   = Popup.stored_clientProfile storage ∧
   Popup.stored_reviewResults (handleInstall reason installDate version storage)
   = Popup.stored_reviewResults storage) ∧
  (reason ≠ "install" →
   handleInstall reason installDate version storage = storage).
Proof.
  unfold handleInstall. split.
  - by intros ->.
  - intros Hreason. apply String.eqb_neq in Hreason. by rewrite Hreason.
Qed.

Lemma handleInstall_counter_witness :
  handleInstall "update" "2025-04-01T00:00:00.000Z" "1.1.0"
    (Popup.storeUsageCount 42 EngineFacts.installed)
  = Popup.storeUsageCount 42 EngineFacts.installed.
Proof.
  destruct (handleInstall_counter "update" "2025-04-01T00:00:00.000Z" "1.1.0"
              (Popup.storeUsageCount 42 EngineFacts.installed)) as [_ Hother].
  by apply Hother.
Defined.

(** *** The table and the literal thresholds *)

(** X25.  The tax-audit thresholds of the reference table are the ones
    written into [isAuditApplicable]: for an entity without a rule of its
    own, audit is applicable exactly when the turnover exceeds the
    "profession" entry of the table if the nature of business mentions
    a profession, and the "business" entry if not. *)
Theorem table_thresholds_agree :
  ∃ tables thresholds business profession,
    fetchStatutoryData "income-tax" "tax-audit-threshold" = Normal (Tables tables) ∧
    tables !! "tax-audit-threshold" = Some thresholds ∧
    thresholds !! "business" = Some (Num business) ∧
    thresholds !! "profession" = Some (Num profession) ∧
    ∀ p : Popup.Profile,
      ¬ ProfileFacts.hasOwnRule (Popup.entityType p) →
      Popup.isAuditApplicable p
      = gt (Popup.turnover p)
           (if includes (toLowerCase (Popup.businessNature p)) "profession"
            then profession else business).
Proof.
  eexists _, _, 10000000, 5000000.
  split; [reflexivity|]. split; [by vm_compute|].
  split; [by vm_compute|]. split; [by vm_compute|].
  intros p Hother.
  destruct (ProfileFacts.no_own_rule _ Hother) as (Hprivate & Hpublic & Hllp & Hpartner).
  unfold Popup.isAuditApplicable. cbv zeta.
  rewrite Hprivate, Hpublic, Hllp, Hpartner. cbn [orb].
  by destruct (includes _ _).
Qed.

Lemma table_thresholds_agree_witness :
  ∃ business profession,
    Popup.isAuditApplicable
      (ProfileFacts.formWith "individual" "Legal PROFESSION" 6000000 "unregistered" false)
    = gt 6000000 profession ∧
    Popup.isAuditApplicable
      (ProfileFacts.formWith "proprietorship" "Retail" 6000000 "unregistered" false)
    = gt 6000000 business.
Proof.
  destruct table_thresholds_agree
    as (tables & thresholds & business & profession & _ & _ & _ & _ & Hrule).
  exists business, profession. split.
  - rewrite Hrule; [reflexivity|].
    unfold ProfileFacts.hasOwnRule; simpl. intros [?|[?|[?|?]]]; discriminate.
  - rewrite Hrule; [reflexivity|].
    unfold ProfileFacts.hasOwnRule; simpl. intros [?|[?|[?|?]]]; discriminate.
Defined.

End HousekeepingFacts.

(** ** Disallowable expenses and the shape of the report *)

Module KeywordFacts.
Import JS Background StringFacts.

Section Keywords.

Variable finiteToString : float → string.

Lemma isDisallowable_keyword (expense : Expense) :
  isDisallowable expense = true ↔
  ∃ keyword, keyword ∈ disallowableKeywords ∧
             containsIgnoringCase (description expense) keyword.
Proof.
  unfold isDisallowable. rewrite existsb_exists. split.
  - intros (keyword & Hin & Hincludes). exists keyword.
    split; [by apply list_elem_of_In|].
    apply includes_toLowerCase.
    assert (toLowerCase keyword = keyword) as ->; [|done].
    destruct Hin as [<-|[<-|[<-|[<-|[]]]]]; reflexivity.
  - intros (keyword & Hin & Hcontains). exists keyword.
    split; [by apply list_elem_of_In|].
    apply includes_toLowerCase in Hcontains.
    assert (toLowerCase keyword = keyword) as Hlower; [|by rewrite Hlower in Hcontains].
    apply list_elem_of_In in Hin.
    destruct Hin as [<-|[<-|[<-|[<-|[]]]]]; reflexivity.
Qed.

(** X26.  An expense is reported as potentially disallowable exactly
    when its description contains "personal", "penalty", "fine" or
    "political donation", in any letter case and anywhere in the text (so
    also inside a longer word).  The warnings of [validateProfitLoss]
    start with one such warning for each of these expenses, in the order
    of the expenses, naming the description and the amount. *)
Theorem disallowable_expenses_reported (data : ProfitLoss) :
  (∀ expense,
     isDisallowable expense = true ↔
     ∃ keyword, keyword ∈ ["personal"; "penalty"; "fine"; "political donation"] ∧
                containsIgnoringCase (description expense) keyword) ∧
  ∃ cash,
    warnings (validateProfitLoss finiteToString data)
    = ((λ expense,
          "Potential disallowable expense: " +:+ description expense +:+
          " (₹" +:+ numberToString finiteToString (amount expense) +:+ ")")
       <$> List.filter isDisallowable (expenses data))
      ++ cash ∧
    length cash ≤ 1.
Proof.
  split; [apply isDisallowable_keyword|].
  eexists. split.
  - apply (ValidationFacts.validateProfitLoss_warnings finiteToString data).
  - destruct (length (List.filter isLargeCashPayment (expenses data))); cbn; lia.
Qed.

End Keywords.

Example refinery_is_flagged :
  isDisallowable {| description := "Refinery charges"; amount := 1200; paymentMode := "bank" |}
  = true ∧
  isDisallowable {| description := "PENALTY for late filing"; amount := 500; paymentMode := "bank" |}
  = true ∧
  isDisallowable {| description := "Office rent"; amount := 30000; paymentMode := "bank" |}
  = false.
Proof. repeat apply conj; reflexivity. Qed.

End KeywordFacts.

Module ReportFacts.
Import JS Popup.

Definition hasContent (section : ReportSection) : bool :=
  match rs_content section with
  | Some _ => true
  | None => false
  end.

Section Shape.

Variable toLocaleDateString : Date → string.

(** X27.  [createReport] throws exactly when no profile is stored or the
    stored profile has no compliance object.  Otherwise the report has
    the fixed title and disclaimer, the date of the clock, the client and
    the year of the profile, and six sections with the titles "1.
    Executive Summary" to "6. Next Steps" in this order, the first one
    with a text and the others with points. *)
Theorem createReport_outcome (e : Engine) (now : Date) :
  match createReport toLocaleDateString e now with
  | Throw _ =>
      clientProfile e = None ∨
      ∃ profile, clientProfile e = Some profile ∧ complianceRequirements profile = None
  | Normal report =>
      ∃ profile,
        clientProfile e = Some profile ∧
        is_Some (complianceRequirements profile) ∧
        title report = "Chartered Accountant Review Report" ∧
        report_clientName report = clientName profile ∧
        report_financialYear report = financialYear profile ∧
        reportDate report = toLocaleDateString now ∧
        rs_title <$> sections report
        = [ "1. Executive Summary"; "2. Key Observations";
            "3. Items Requiring Clarification"; "4. High-Risk Areas";
            "5. Compliance Status"; "6. Next Steps" ] ∧
        hasContent <$> sections report
        = [true; false; false; false; false; false] ∧
        (length ∘ default [] ∘ rs_points) <$> sections report = [0; 4; 4; 3; 4; 5]%nat ∧
        disclaimer report
        = "This report is based on rule-based review and publicly available statutory information. Final decisions must be taken by a qualified Chartered Accountant. This report does not constitute audit, assurance, or legal opinion."
  end.
Proof.
  unfold createReport. destruct (clientProfile e) as [profile|]; cbn; [|by left].
  destruct (complianceRequirements profile) as [compliance|] eqn:Hcompliance; cbn.
  - exists profile. rewrite Hcompliance. repeat split; try done.
  - right. by exists profile.
Qed.

End Shape.

End ReportFacts.
